(** * DeepLIO: the KITTI raw-data sessions and the windowed dataset

    A shallow embedding of [deeplio/datasets/kitti.py]: the recording
    session [KittiRawData], its window query [get_data], and the dataset
    [Kitti] with its bin table and global lookup [__getitem__].

    Python exceptions are values of [Exn]; what is printed or logged is a
    list of [Event]s; a computation is a pair of the events it emitted and
    either the exception it raised or the value it returned. *)

From Stdlib Require Import ZArith List String Ascii Bool Lia Sorted Permutation.
Import ListNotations.

Local Open Scope string_scope.
Local Open Scope list_scope.
Local Open Scope Z_scope.

(* ===================================================================== *)
(** ** Exceptions, diagnostics and the computation monad *)
(* ===================================================================== *)

Inductive Exn : Type :=
| NameError (name : string)
| UnboundLocalError (name : string)
| IndexError
| KeyError (key : string)
| ValueError
| OSError (path : string).

Inductive Result (A : Type) : Type :=
| Ok (a : A)
| Err (e : Exn).
Arguments Ok {A} a.
Arguments Err {A} e.

(** What the program writes: the three [print] calls and the
    [logger.info] calls of [Kitti.__init__], by call site and with their
    integer arguments. *)
Inductive Event : Type :=
| WarnNoImu (start_index : Z)
| ErrNoBins
| DeltaTime
| LogHeader
| LogSummary (ds_type : string) (length seq_size : Z)
| LogDrive (date drive : string) (length : Z) (bin : Z * Z).

Definition M (A : Type) : Type := (list Event * Result A)%type.

Definition ret {A} (a : A) : M A := ([], Ok a).
Definition raise {A} (e : Exn) : M A := ([], Err e).
Definition emit (ev : Event) : M unit := ([ev], Ok tt).
Definition lift {A} (r : Result A) : M A := ([], r).

Definition bind {A B} (m : M A) (f : A -> M B) : M B :=
  match m with
  | (out, Ok a) => let (out', r) := f a in (out ++ out', r)
  | (out, Err e) => (out, Err e)
  end.

Notation "'let!' x ':=' c 'in' k" := (bind c (fun x => k))
  (at level 10, x pattern, c at level 100, k at level 200).
Notation "c ';;' k" := (bind c (fun _ => k))
  (at level 100, k at level 200, right associativity).

Definition rbind {A B} (r : Result A) (f : A -> Result B) : Result B :=
  match r with
  | Ok a => f a
  | Err e => Err e
  end.

(** A list comprehension whose body can raise: the elements are computed
    left to right and the first exception ends the loop. *)
Fixpoint mapM {A B} (f : A -> M B) (l : list A) : M (list B) :=
  match l with
  | [] => ret []
  | x :: r => let! y := f x in let! ys := mapM f r in ret (y :: ys)
  end.

(** The value of a computation that returned, [None] when it raised. *)
Definition returned {A} (m : M A) : option A :=
  match snd m with
  | Ok a => Some a
  | Err _ => None
  end.

(* ===================================================================== *)
(** ** Python and numpy sequences *)
(* ===================================================================== *)

Definition len {A} (a : list A) : Z := Z.of_nat (List.length a).

(** [a[i]] on a list or a one-dimensional array: a negative index counts
    from the end, anything outside [-len, len) raises IndexError. *)
Definition py_getitem {A} (a : list A) (i : Z) : Result A :=
  let j := if i <? 0 then len a + i else i in
  if (0 <=? j) && (j <? len a) then
    match nth_error a (Z.to_nat j) with
    | Some x => Ok x
    | None => Err IndexError
    end
  else Err IndexError.

(** [range(a, b)] *)
Definition py_range (a b : Z) : list Z :=
  map (fun k => a + Z.of_nat k) (seq 0 (Z.to_nat (b - a))).

(** [np.argwhere(mask).flatten()]: the positions of the true entries. *)
Fixpoint argwhere_from (i : Z) (mask : list bool) : list Z :=
  match mask with
  | [] => []
  | b :: r => if b then i :: argwhere_from (i + 1) r
              else argwhere_from (i + 1) r
  end.

Definition argwhere (mask : list bool) : list Z := argwhere_from 0 mask.

(** [a[indices]] with an integer index array. *)
Definition np_take {A} (a : list A) (indices : list Z) : M (list A) :=
  mapM (fun i => lift (py_getitem a i)) indices.

(** [line[:-k]] *)
Definition py_drop_last (k : nat) (s : string) : string :=
  let l := list_ascii_of_string s in
  string_of_list_ascii (firstn (List.length l - k) l).

(** [sorted] on file names. *)
Fixpoint sorted_insert (x : string) (l : list string) : list string :=
  match l with
  | [] => [x]
  | y :: r => if String.leb x y then x :: l else y :: sorted_insert x r
  end.

Definition sorted (l : list string) : list string :=
  fold_right sorted_insert [] l.

(** [os.path.join] on components that are not empty and have no slash at
    their ends, of which only the first may start with one. *)
Definition path_join (parts : list string) : string :=
  String.concat "/" parts.

(* ===================================================================== *)
(** ** [datetime.strptime], as far as the timestamp files need it *)
(* ===================================================================== *)

Record datetime : Type := mkdatetime {
  year : Z; month : Z; day : Z;
  hour : Z; minute : Z; second : Z; microsecond : Z
}.

(** Comparison of naive datetimes: field by field, most significant first. *)
Fixpoint lex_compare (a b : list Z) : comparison :=
  match a, b with
  | x :: a', y :: b' =>
      match x ?= y with
      | Eq => lex_compare a' b'
      | c => c
      end
  | [], [] => Eq
  | [], _ :: _ => Lt
  | _ :: _, [] => Gt
  end.

Definition datetime_fields (t : datetime) : list Z :=
  [year t; month t; day t; hour t; minute t; second t; microsecond t].

Definition datetime_compare (a b : datetime) : comparison :=
  lex_compare (datetime_fields a) (datetime_fields b).

Definition datetime_ge (a b : datetime) : bool :=
  match datetime_compare a b with Lt => false | _ => true end.

Definition datetime_lt (a b : datetime) : bool :=
  match datetime_compare a b with Lt => true | _ => false end.

Definition is_leap (y : Z) : bool :=
  (y mod 4 =? 0) && (negb (y mod 100 =? 0) || (y mod 400 =? 0)).

Definition days_in_month (y m : Z) : Z :=
  if m =? 2 then (if is_leap y then 29 else 28)
  else if (m =? 4) || (m =? 6) || (m =? 9) || (m =? 11) then 30
  else 31.

(** The checks of the [datetime] constructor. *)
Definition datetime_valid (t : datetime) : bool :=
  (1 <=? year t) && (year t <=? 9999) &&
  (1 <=? month t) && (month t <=? 12) &&
  (1 <=? day t) && (day t <=? days_in_month (year t) (month t)) &&
  (0 <=? hour t) && (hour t <=? 23) &&
  (0 <=? minute t) && (minute t <=? 59) &&
  (0 <=? second t) && (second t <=? 59) &&
  (0 <=? microsecond t) && (microsecond t <=? 999999).

Definition is_digit (c : ascii) : bool :=
  (48 <=? nat_of_ascii c)%nat && (nat_of_ascii c <=? 57)%nat.

Definition digit_val (c : ascii) : Z := Z.of_nat (nat_of_ascii c - 48).

(** [\s] of the regular expressions, on ASCII. *)
Definition is_space (c : ascii) : bool :=
  let n := nat_of_ascii c in
  (n =? 32)%nat || ((9 <=? n)%nat && (n <=? 13)%nat).

(** The format directives of the subset in use. *)
Inductive directive : Type :=
| DirY | Dirm | Dird | DirH | DirM | DirS | Dirf
| DirSpace
| DirLit (c : ascii).

Definition directive_of (c : ascii) : Result directive :=
  if Ascii.eqb c "Y" then Ok DirY
  else if Ascii.eqb c "m" then Ok Dirm
  else if Ascii.eqb c "d" then Ok Dird
  else if Ascii.eqb c "H" then Ok DirH
  else if Ascii.eqb c "M" then Ok DirM
  else if Ascii.eqb c "S" then Ok DirS
  else if Ascii.eqb c "f" then Ok Dirf
  else if Ascii.eqb c "%" then Ok (DirLit "%")
  else Err ValueError.

(** A format string becomes a sequence of directives; a run of white space
    in the format stands for one or more white-space characters. *)
Fixpoint compile_format (f : list ascii) : Result (list directive) :=
  match f with
  | [] => Ok []
  | c :: r =>
      if Ascii.eqb c "%" then
        match r with
        | [] => Err ValueError
        | d :: r' =>
            rbind (directive_of d) (fun x =>
            rbind (compile_format r') (fun xs => Ok (x :: xs)))
        end
      else
        rbind (compile_format r) (fun xs =>
          if is_space c then
            match xs with
            | DirSpace :: _ => Ok xs
            | _ => Ok (DirSpace :: xs)
            end
          else Ok (DirLit c :: xs))
  end.

(** Up to [n] leading digits, and what follows them. *)
Fixpoint span_digits (n : nat) (s : list ascii) : list ascii * list ascii :=
  match n, s with
  | S n', c :: r =>
      if is_digit c then
        let (ds, rest) := span_digits n' r in (c :: ds, rest)
      else ([], s)
  | _, _ => ([], s)
  end.

Definition digits_value (ds : list ascii) : Z :=
  fold_left (fun acc c => 10 * acc + digit_val c) ds 0.

Fixpoint drop_spaces (s : list ascii) : list ascii :=
  match s with
  | c :: r => if is_space c then drop_spaces r else s
  | [] => []
  end.

(** A number of one to [width] digits between [lo] and [hi]: what the
    alternatives of a numeric directive accept when a character that is
    not a digit follows. *)
Definition match_number (width : nat) (lo hi : Z) (s : list ascii)
  : option (Z * list ascii) :=
  let (ds, rest) := span_digits width s in
  let v := digits_value ds in
  if (1 <=? List.length ds)%nat && (lo <=? v) && (v <=? hi)
  then Some (v, rest) else None.

Definition match_directive (d : directive) (t : datetime) (s : list ascii)
  : option (datetime * list ascii) :=
  match d with
  | DirY =>
      let (ds, rest) := span_digits 4 s in
      if (List.length ds =? 4)%nat
      then Some (mkdatetime (digits_value ds) (month t) (day t) (hour t)
                   (minute t) (second t) (microsecond t), rest)
      else None
  | Dirm =>
      option_map (fun '(v, rest) =>
        (mkdatetime (year t) v (day t) (hour t) (minute t) (second t)
           (microsecond t), rest)) (match_number 2 1 12 s)
  | Dird =>
      option_map (fun '(v, rest) =>
        (mkdatetime (year t) (month t) v (hour t) (minute t) (second t)
           (microsecond t), rest))
        match s with
        | c :: s' =>
            if Ascii.eqb c " " then match_number 1 1 9 s'
            else match_number 2 1 31 s
        | [] => None
        end
  | DirH =>
      option_map (fun '(v, rest) =>
        (mkdatetime (year t) (month t) (day t) v (minute t) (second t)
           (microsecond t), rest)) (match_number 2 0 23 s)
  | DirM =>
      option_map (fun '(v, rest) =>
        (mkdatetime (year t) (month t) (day t) (hour t) v (second t)
           (microsecond t), rest)) (match_number 2 0 59 s)
  | DirS =>
      option_map (fun '(v, rest) =>
        (mkdatetime (year t) (month t) (day t) (hour t) (minute t) v
           (microsecond t), rest)) (match_number 2 0 61 s)
  | Dirf =>
      let (ds, rest) := span_digits 6 s in
      if (1 <=? List.length ds)%nat
      then Some (mkdatetime (year t) (month t) (day t) (hour t) (minute t)
                   (second t)
                   (digits_value ds * 10 ^ Z.of_nat (6 - List.length ds)),
                 rest)
      else None
  | DirSpace =>
      match s with
      | c :: r => if is_space c then Some (t, drop_spaces r) else None
      | [] => None
      end
  | DirLit c =>
      match s with
      | c' :: r => if Ascii.eqb c c' then Some (t, r) else None
      | [] => None
      end
  end.

Fixpoint match_directives (ds : list directive) (t : datetime)
  (s : list ascii) : option (datetime * list ascii) :=
  match ds with
  | [] => Some (t, s)
  | d :: ds' =>
      match match_directive d t s with
      | Some (t', s') => match_directives ds' t' s'
      | None => None
      end
  end.

(** [datetime.datetime.strptime(data_string, format)]: the whole of
    [data_string] has to match, the fields that the format does not name
    keep the defaults 1900-01-01 00:00:00, and the result has to be a date
    that exists. *)
Definition datetime_strptime (data_string format : string) : Result datetime :=
  rbind (compile_format (list_ascii_of_string format)) (fun ds =>
    match match_directives ds (mkdatetime 1900 1 1 0 0 0 0)
            (list_ascii_of_string data_string) with
    | Some (t, []) => if datetime_valid t then Ok t else Err ValueError
    | _ => Err ValueError
    end).

(* ===================================================================== *)
(** ** The collaborators outside this file *)
(* ===================================================================== *)

(** The six packet fields that [get_data] reads, and the pose that comes
    with a packet. *)
Record OxtsPacket (Scalar : Type) : Type := mkOxtsPacket {
  ax : Scalar; ay : Scalar; az : Scalar;
  wx : Scalar; wy : Scalar; wz : Scalar
}.
Arguments ax {Scalar}.
Arguments ay {Scalar}.
Arguments az {Scalar}.
Arguments wx {Scalar}.
Arguments wy {Scalar}.
Arguments wz {Scalar}.

Record OxtsData (Scalar : Type) : Type := mkOxtsData {
  packet : OxtsPacket Scalar;
  T_w_imu : list (list Scalar)
}.
Arguments packet {Scalar}.
Arguments T_w_imu {Scalar}.

(** What the module calls and does not define: the timestamps of
    [datetime] with their comparisons and parser, the storage ([glob.glob]
    and [open(...).readlines()]), [deeplio.common.utils] and the range
    projection of [deeplio.common.laserscan.LaserScan]. *)
Class Externals : Type := {
  Time : Type;
  time_ge : Time -> Time -> bool;
  time_lt : Time -> Time -> bool;
  strptime : string -> string -> Result Time;
  Scalar : Type;
  zero : Scalar;
  Image : Type;
  Scan : Type;
  Transform : Type;
  glob_glob : string -> list string;
  readlines : string -> Result (list string);
  load_velo_scan : string -> Result Scan;
  range_image : Z -> Z -> Scalar -> Scalar -> string -> Result Image;
  load_oxts_packets_and_poses : list string -> Result (list (OxtsData Scalar))
}.

(* ===================================================================== *)
(** ** class KittiRawData *)
(* ===================================================================== *)

Section Dataset.
Context {E : Externals}.

(** The dataset part of the configuration, [cfg['datasets']['kitti']]:
    the projector options, the storage root and, per split, the drives of
    each date in the order of the file. The options are there by type;
    dates and drives are the strings that [str] makes of them. The splits
    are kept apart from the options, so a split is looked up by a name
    that is not the key of an option. *)
Record DsConfig : Type := mkDsConfig {
  cfg_root_path : string;
  cfg_image_width : Z;
  cfg_image_height : Z;
  cfg_fov_up : Scalar;
  cfg_fov_down : Scalar;
  cfg_splits : list (string * list (string * list string))
}.

Record Config : Type := mkConfig {
  datasets_kitti : DsConfig;
  sequence_size : Z
}.

(** [d[key]] on a dictionary kept in insertion order. *)
Fixpoint dict_getitem {V} (d : list (string * V)) (key : string) : Result V :=
  match d with
  | [] => Err (KeyError key)
  | (k, v) :: r => if String.eqb k key then Ok v else dict_getitem r key
  end.

Record KittiRawData : Type := mkKittiRawData {
  drive : string;
  date : string;
  calib_path : string;
  data_path : string;
  image_width : Z;
  image_height : Z;
  fov_up : Scalar;
  fov_down : Scalar;
  oxts_files : list string;
  velo_files : list string;
  timestamps_imu : list Time;
  timestamps_velo : list Time
}.

(** One of the two loops of [_load_timestamps]: every line loses its last
    four characters and is parsed. *)
Definition read_timestamps (timestamp_file : string) : M (list Time) :=
  let! lines := lift (readlines timestamp_file) in
  mapM (fun line =>
          lift (strptime (py_drop_last 4 line) "%Y-%m-%d %H:%M:%S.%f"))
       lines.

(** [KittiRawData.__init__], called without [frames]: [_get_file_lists]
    and then [_load_timestamps]. *)
Definition KittiRawData_init (base_path date drive : string) (cfg : DsConfig)
  : M KittiRawData :=
  let calib_path := path_join [base_path; date] in
  let data_path := path_join [base_path; date; drive] in
  let oxts_files :=
    sorted (glob_glob (path_join [data_path; "oxts"; "data"; "*.txt"])) in
  let velo_files :=
    sorted (glob_glob
              (path_join [data_path; "velodyne_points"; "data"; "*.txt"])) in
  let timestamp_file_imu := path_join [data_path; "oxts"; "timestamps.txt"] in
  let timestamp_file_velo :=
    path_join [data_path; "velodyne_points"; "timestamps.txt"] in
  let! timestamps_imu := read_timestamps timestamp_file_imu in
  let! timestamps_velo := read_timestamps timestamp_file_velo in
  ret (mkKittiRawData drive date calib_path data_path
         (cfg_image_width cfg) (cfg_image_height cfg)
         (cfg_fov_up cfg) (cfg_fov_down cfg)
         oxts_files velo_files timestamps_imu timestamps_velo).

(** [__len__] *)
Definition KittiRawData_len (self : KittiRawData) : Z := len (velo_files self).

Definition get_velo (self : KittiRawData) (idx : Z) : Result Scan :=
  rbind (py_getitem (velo_files self) idx) load_velo_scan.

Definition get_velo_image (self : KittiRawData) (idx : Z) : Result Image :=
  rbind (py_getitem (velo_files self) idx)
        (range_image (image_height self) (image_width self)
                     (fov_up self) (fov_down self)).

Definition load_oxt_lazy (self : KittiRawData) (index : Z)
  : Result (list (OxtsData Scalar)) :=
  rbind (py_getitem (oxts_files self) index)
        (fun f => load_oxts_packets_and_poses [f]).

(** The value bound to [imu_values]: six numbers in a row on the branch
    without inertial data, one row of six per selected sample otherwise. *)
Inductive ImuValues : Type :=
| ImuFlat (values : list Scalar)
| ImuRows (rows : list (list Scalar)).

(** The dictionary that [get_data] returns. *)
Record Sample : Type := mkSample {
  images : list Image;
  imu : ImuValues;
  ground_truth : list (list Scalar)
}.

(** The mask of [get_data] and the positions it keeps. *)
Definition imu_mask (timestamps : list Time) (velo_start_ts velo_stop_ts : Time)
  : list bool :=
  map (fun t => time_ge t velo_start_ts && time_lt t velo_stop_ts) timestamps.

Definition imu_row (otx : list (OxtsData Scalar)) : M (list Scalar) :=
  let! o := lift (py_getitem otx 0) in
  ret [ax (packet o); ay (packet o); az (packet o);
       wx (packet o); wy (packet o); wz (packet o)].

Definition gt_row (otx : list (OxtsData Scalar)) : M (list Scalar) :=
  let! o := lift (py_getitem otx 0) in
  ret (List.concat (T_w_imu o)).

(** [get_data]. The local name [gt] is bound on one branch only; it is
    [None] while unbound, and reading it then raises. *)
Definition get_data (self : KittiRawData) (start_index length : Z) : M Sample :=
  let! velo_start_ts := lift (py_getitem (timestamps_velo self) start_index) in
  let! velo_stop_ts :=
    lift (py_getitem (timestamps_velo self) (start_index + length - 1)) in
  let! images :=
    mapM (fun idx => lift (get_velo_image self idx))
         (py_range start_index (start_index + length)) in
  let mask := imu_mask (timestamps_imu self) velo_start_ts velo_stop_ts in
  let indices := argwhere mask in
  let! imu_ts := np_take (timestamps_imu self) indices in
  let! (imu_values, gt) :=
    if (len imu_ts =? 0) then
      emit (WarnNoImu start_index);;
      ret (ImuFlat (repeat zero 6), None)
    else
      let! otxs := mapM (fun index => lift (load_oxt_lazy self index)) indices in
      let! imu_values := mapM imu_row otxs in
      let! gt := mapM gt_row otxs in
      ret (ImuRows imu_values, Some gt) in
  let! gt :=
    match gt with
    | Some v => ret v
    | None => raise (UnboundLocalError "gt")
    end in
  ret (mkSample images imu_values gt).

(* ===================================================================== *)
(** ** class Kitti *)
(* ===================================================================== *)

(** The names that the methods of [Kitti] look up in the module: [cfg]
    and [time] are bound only by the driver at the end of the file. *)
Record Globals : Type := mkGlobals {
  cfg : option Config;
  time_imported : bool
}.

Definition global_cfg (g : Globals) : M Config :=
  match cfg g with
  | Some c => ret c
  | None => raise (NameError "cfg")
  end.

(** [time.time()]; the clock value itself is not kept. *)
Definition time_time (g : Globals) : M unit :=
  if time_imported g then ret tt else raise (NameError "time").

Record Kitti : Type := mkKitti {
  transform : option Transform;
  ds_type : string;
  seq_size : Z;
  dataset : list KittiRawData;
  length_each_drive : list Z;
  bins : list (Z * Z);
  self_length : Z
}.

(** What the two nested loops of [__init__] carry along. *)
Record LoopState : Type := mkLoopState {
  last_bin_end : Z;
  st_bins : list (Z * Z);
  st_length_each_drive : list Z;
  st_dataset : list KittiRawData
}.

Fixpoint foldM {A S} (body : S -> A -> M S) (st : S) (l : list A) : M S :=
  match l with
  | [] => ret st
  | x :: r => let! st' := body st x in foldM body st' r
  end.

Definition drive_step (root_path : string) (ds_config : DsConfig)
  (seq_size : Z) (date : string) (st : LoopState) (drive : string)
  : M LoopState :=
  let! ds := KittiRawData_init root_path date drive ds_config in
  let length := KittiRawData_len ds in
  let bin_start := last_bin_end st + 1 in
  let bin_end := bin_start + length - seq_size in
  ret (mkLoopState bin_end
         (st_bins st ++ [(bin_start, bin_end)])
         (st_length_each_drive st ++ [length])
         (st_dataset st ++ [ds])).

Definition flatten_bins (bins : list (Z * Z)) : list Z :=
  flat_map (fun b => [fst b; snd b]) bins.

Definition log_drive (dataset : list KittiRawData) (lengths : list Z)
  (bins : list (Z * Z)) (i : Z) : M unit :=
  let! ds := lift (py_getitem dataset i) in
  let! length := lift (py_getitem lengths i) in
  let! bin := lift (py_getitem bins i) in
  emit (LogDrive (date ds) (drive ds) length bin).

(** [Kitti.__init__]. The parameter [config] is there as in the source;
    the body reads the module-level name [cfg]. *)
Definition Kitti_init (g : Globals) (config : Config) (ds_type : string)
  (transform : option Transform) : M Kitti :=
  let! c := global_cfg g in
  let ds_config := datasets_kitti c in
  let root_path := cfg_root_path ds_config in
  let! c' := global_cfg g in
  let seq_size := sequence_size c' in
  let! items := lift (dict_getitem (cfg_splits ds_config) ds_type) in
  let! st :=
    foldM (fun st '(date, drives) =>
             foldM (drive_step root_path ds_config seq_size date) st drives)
          (mkLoopState (-1) [] [] []) items in
  let! last := lift (py_getitem (flatten_bins (st_bins st)) (-1)) in
  let length := last + 1 in
  emit LogHeader;;
  emit (LogSummary ds_type length seq_size);;
  mapM (log_drive (st_dataset st) (st_length_each_drive st) (st_bins st))
       (py_range 0 (len (st_length_each_drive st)));;
  ret (mkKitti transform ds_type seq_size (st_dataset st)
         (st_length_each_drive st) (st_bins st) length).

(** [__len__] *)
Definition Kitti_len (self : Kitti) : Z := self_length self.

(** The loop of [__getitem__] over [enumerate(self.bins)]: the pair
    [(idx, num_drive)] it leaves, [(-1, -1)] when no bin holds [index]. *)
Fixpoint find_bin (i : Z) (bins : list (Z * Z)) (index : Z) : Z * Z :=
  match bins with
  | [] => (-1, -1)
  | (bin_start, bin_end) :: r =>
      if (bin_start <=? index) && (index <=? bin_end)
      then (index - bin_start, i)
      else find_bin (i + 1) r index
  end.

(** [Kitti.__getitem__] at an integer [index] (a tensor is turned into
    one first); [None] is Python's [None]. *)
Definition Kitti_getitem (g : Globals) (self : Kitti) (index : Z)
  : M (option Sample) :=
  let '(idx, num_drive) := find_bin 0 (bins self) index in
  if (idx <? 0) || (num_drive <? 0) then
    emit ErrNoBins;;
    ret None
  else
    time_time g;;
    let! ds := lift (py_getitem (dataset self) num_drive) in
    let! data := get_data ds idx (seq_size self) in
    time_time g;;
    emit DeltaTime;;
    ret (Some data).

End Dataset.

(* ===================================================================== *)
(** ** The bin table, as a function of the session lengths *)
(* ===================================================================== *)

(** The bins that the loop of [__init__] produces for sessions of the
    given lengths when the previous bin ended at [prev], and where the
    last of them ends. *)
Fixpoint bins_of (seq_size prev : Z) (lengths : list Z) : list (Z * Z) :=
  match lengths with
  | [] => []
  | l :: r =>
      (prev + 1, prev + 1 + l - seq_size)
        :: bins_of seq_size (prev + 1 + l - seq_size) r
  end.

Definition end_of (seq_size prev : Z) (lengths : list Z) : Z :=
  fold_left (fun e l => e + 1 + l - seq_size) lengths prev.

Definition in_bin (index : Z) (bin : Z * Z) : Prop :=
  fst bin <= index <= snd bin.

Definition contiguous (bins : list (Z * Z)) : Prop :=
  forall k b b',
    nth_error bins k = Some b -> nth_error bins (S k) = Some b' ->
    snd b + 1 = fst b'.

Definition sum_Z (l : list Z) : Z := fold_right Z.add 0 l.

(* ===================================================================== *)
(** ** Concrete collaborators and recordings for the examples *)
(* ===================================================================== *)

Definition newline : string := String (ascii_of_nat 10) "".

Definition digit_char (d : Z) : ascii := ascii_of_nat (48 + Z.to_nat d).

(** [n] written with [k] decimal digits. *)
Fixpoint pad (k : nat) (n : Z) : list ascii :=
  match k with
  | O => []
  | S k' => pad k' (n / 10) ++ [digit_char (n mod 10)]
  end.

(** A line of a KITTI timestamp file: date, time of day and nine
    sub-second digits, ended by a newline. *)
Definition timestamp_line (t : datetime) (nanos : Z) : string :=
  string_of_list_ascii
    (pad 4 (year t) ++ "-"%char :: pad 2 (month t) ++ "-"%char ::
     pad 2 (day t) ++ " "%char :: pad 2 (hour t) ++ ":"%char ::
     pad 2 (minute t) ++ ":"%char :: pad 2 (second t) ++ "."%char ::
     pad 9 nanos ++ list_ascii_of_string newline).

(** The time of a line with its sub-second part cut to microseconds. *)
Definition truncated (t : datetime) (nanos : Z) : datetime :=
  mkdatetime (year t) (month t) (day t) (hour t) (minute t) (second t)
             (nanos / 1000).

(** A line is well formed when its fields are those of a date and time
    that exist and it has nine sub-second digits. *)
Definition stamp_ok (p : datetime * Z) : Prop :=
  datetime_valid (truncated (fst p) (snd p)) = true /\
  0 <= snd p < 1000000000.

Definition stamp_lines (stamps : list (datetime * Z)) : list string :=
  map (fun p => timestamp_line (fst p) (snd p)) stamps.

(** One drive directory of a recording on storage. *)
Record DriveDir : Type := mkDriveDir {
  dir_path : string;
  dir_oxts : list string;
  dir_velo : list string;
  dir_oxts_timestamps : list string;
  dir_velo_timestamps : list string
}.

Definition storage_glob (dirs : list DriveDir) (pattern : string) : list string :=
  flat_map (fun d =>
    if String.eqb pattern (path_join [dir_path d; "oxts"; "data"; "*.txt"])
    then dir_oxts d
    else if String.eqb pattern
              (path_join [dir_path d; "velodyne_points"; "data"; "*.txt"])
    then dir_velo d
    else []) dirs.

Fixpoint storage_readlines (dirs : list DriveDir) (path : string)
  : Result (list string) :=
  match dirs with
  | [] => Err (OSError path)
  | d :: r =>
      if String.eqb path (path_join [dir_path d; "oxts"; "timestamps.txt"])
      then Ok (dir_oxts_timestamps d)
      else if String.eqb path
                (path_join [dir_path d; "velodyne_points"; "timestamps.txt"])
      then Ok (dir_velo_timestamps d)
      else storage_readlines r path
  end.

(** Decoders that return what identifies their input: a scan or an image
    is the name of its file, a packet carries the number in the name of its
    file in every field. *)
Definition file_number (f : string) : Z :=
  let l := list_ascii_of_string f in
  digits_value (filter is_digit (skipn (List.length l - 14) l)).

Definition name_packet (f : string) : OxtsData Z :=
  let n := file_number f in
  mkOxtsData Z (mkOxtsPacket Z n n n n n n) [[n]].

(** Python's [datetime] over a storage of drive directories. *)
Definition datetime_externals (dirs : list DriveDir) : Externals := {|
  Time := datetime;
  time_ge := datetime_ge;
  time_lt := datetime_lt;
  strptime := datetime_strptime;
  Scalar := Z;
  zero := 0;
  Image := string;
  Scan := string;
  Transform := unit;
  glob_glob := storage_glob dirs;
  readlines := storage_readlines dirs;
  load_velo_scan := fun f => Ok f;
  range_image := fun _ _ _ _ f => Ok f;
  load_oxts_packets_and_poses := fun fs => Ok (map name_packet fs)
|}.

(** Integer timestamps, for sessions given directly. *)
Definition integer_externals : Externals := {|
  Time := Z;
  time_ge := Z.geb;
  time_lt := Z.ltb;
  strptime := fun _ _ => Err ValueError;
  Scalar := Z;
  zero := 0;
  Image := string;
  Scan := string;
  Transform := unit;
  glob_glob := fun _ => [];
  readlines := fun p => Err (OSError p);
  load_velo_scan := fun f => Ok f;
  range_image := fun _ _ _ _ f => Ok f;
  load_oxts_packets_and_poses := fun fs => Ok (map name_packet fs)
|}.

(** [n] file names in a directory, numbered from zero. *)
Definition numbered_files (dir : string) (n : nat) : list string :=
  map (fun k => dir ++ "/" ++
                string_of_list_ascii (pad 10 (Z.of_nat k)) ++ ".txt")%string
      (seq 0 n).

(** A drive of 2011-09-26 with [n] scans, one every tenth of a second from
    13:02:25, and [m] inertial samples, one every twentieth from the same
    instant. *)
Definition demo_drive (name : string) (n m : nat) : DriveDir :=
  let path := path_join ["kitti"; "2011_09_26"; name] in
  mkDriveDir path
    (numbered_files (path_join [path; "oxts"; "data"]) m)
    (numbered_files (path_join [path; "velodyne_points"; "data"]) n)
    (map (fun k => timestamp_line (mkdatetime 2011 9 26 13 2 25 0)
                     (Z.of_nat k * 50000000)) (seq 0 m))
    (map (fun k => timestamp_line (mkdatetime 2011 9 26 13 2 25 0)
                     (Z.of_nat k * 100000000)) (seq 0 n)).

Definition demo_config (E : Externals) (up down : @Scalar E)
  (drives : list string) (seq_size : Z) : @Config E :=
  mkConfig (mkDsConfig "kitti" 1800 64 up down
              [("train", [("2011_09_26", drives)])])
           seq_size.

(** One session with five scans, window length three. *)
Definition one_session_dirs : list DriveDir := [demo_drive "0001" 5 9].
Definition one_session_config : @Config (datetime_externals one_session_dirs) :=
  demo_config (datetime_externals one_session_dirs) 3 (-25) ["0001"] 3.
Definition one_session_globals : @Globals (datetime_externals one_session_dirs) :=
  mkGlobals (Some one_session_config) true.

(** Two sessions with five and four scans, window length three. *)
Definition two_session_dirs : list DriveDir :=
  [demo_drive "0001" 5 9; demo_drive "0002" 4 7].
Definition two_session_config : @Config (datetime_externals two_session_dirs) :=
  demo_config (datetime_externals two_session_dirs) 3 (-25) ["0001"; "0002"] 3.
Definition two_session_globals : @Globals (datetime_externals two_session_dirs) :=
  mkGlobals (Some two_session_config) true.

(** One session with two scans, window length three. *)
Definition short_session_dirs : list DriveDir := [demo_drive "0007" 2 3].
Definition short_session_config
  : @Config (datetime_externals short_session_dirs) :=
  demo_config (datetime_externals short_session_dirs) 3 (-25) ["0007"] 3.
Definition short_session_globals
  : @Globals (datetime_externals short_session_dirs) :=
  mkGlobals (Some short_session_config) true.

(** A session with five scans and one without scans, window length
    three. *)
Definition mixed_session_dirs : list DriveDir :=
  [demo_drive "0001" 5 9; demo_drive "0003" 0 0].
Definition mixed_session_config
  : @Config (datetime_externals mixed_session_dirs) :=
  demo_config (datetime_externals mixed_session_dirs) 3 (-25)
    ["0001"; "0003"] 3.
Definition mixed_session_globals
  : @Globals (datetime_externals mixed_session_dirs) :=
  mkGlobals (Some mixed_session_config) true.

(** A session given by its timestamps: scans at 0, 10, 20, 30 and
    inertial samples at the given instants. *)
Definition integer_session (imu_ts : list Z) : @KittiRawData integer_externals :=
  @mkKittiRawData integer_externals "0001" "2011_09_26"
    "kitti/2011_09_26" "kitti/2011_09_26/0001" 1800 64 3 (-25)
    (numbered_files "oxts" (List.length imu_ts))
    (numbered_files "velo" 4)
    imu_ts [0; 10; 20; 30].

(** The lines of the two timestamp files of [demo_drive], as times and
    nanoseconds. *)
Definition demo_stamps (count : nat) (step : Z) : list (datetime * Z) :=
  map (fun k => (mkdatetime 2011 9 26 13 2 25 0, Z.of_nat k * step))
      (seq 0 count).

(** The dataset that a construction returned; an empty one stands for a
    construction that raised. *)
Definition constructed {E : Externals} (m : M Kitti) : Kitti :=
  match returned m with
  | Some self => self
  | None => mkKitti None "" 0 [] [] [] 0
  end.

Definition one_session_dataset : @Kitti (datetime_externals one_session_dirs) :=
  Eval vm_compute in
    constructed (Kitti_init one_session_globals one_session_config "train" None).

Definition two_session_dataset : @Kitti (datetime_externals two_session_dirs) :=
  Eval vm_compute in
    constructed (Kitti_init two_session_globals two_session_config "train" None).

Definition short_session_dataset
  : @Kitti (datetime_externals short_session_dirs) :=
  Eval vm_compute in
    constructed (Kitti_init short_session_globals short_session_config
                   "train" None).

Definition mixed_session_dataset
  : @Kitti (datetime_externals mixed_session_dirs) :=
  Eval vm_compute in
    constructed (Kitti_init mixed_session_globals mixed_session_config
                   "train" None).

(** The sample of the window of two scans from scan 0 of
    [integer_session [1; 5; 9; 15]]. *)
Definition integer_sample : @Sample integer_externals :=
  @mkSample integer_externals
    ["velo/0000000000.txt"; "velo/0000000001.txt"]
    (@ImuRows integer_externals
       [[0; 0; 0; 0; 0; 0]; [1; 1; 1; 1; 1; 1]; [2; 2; 2; 2; 2; 2]])
    [[0]; [1]; [2]].

Section LoopInvariant.
Context {E : Externals}.

(** What the loops of [__init__] keep true of their state. *)
Definition loop_invariant (seq_size : Z) (st : LoopState) : Prop :=
  st_length_each_drive st = map KittiRawData_len (st_dataset st) /\
  st_bins st = bins_of seq_size (-1) (st_length_each_drive st) /\
  last_bin_end st = end_of seq_size (-1) (st_length_each_drive st).

End LoopInvariant.

(* ===================================================================== *)
(** ** Further notions for the statements below *)
(* ===================================================================== *)

(** The (date, drive) pairs of a split, in the order in which the loops
    of [__init__] visit them. *)
Definition config_jobs (items : list (string * list string))
  : list (string * string) :=
  flat_map (fun item => map (pair (fst item)) (snd item)) items.

(** The sessions constructed for a list of (date, drive) pairs, one per
    pair and in the same order. *)
Definition sessions_of {E : Externals} (root_path : string)
  (ds_config : DsConfig) (jobs : list (string * string))
  (sessions : list KittiRawData) : Prop :=
  Forall2 (fun job s =>
             returned (KittiRawData_init root_path (fst job) (snd job)
                         ds_config) = Some s)
          jobs sessions.

(** The keys of the dataset options; in the configuration file they
    share their dictionary with the names of the splits. *)
Definition option_keys : list string :=
  ["root-path"; "image-width"; "image-height"; "fov-up"; "fov-down"].

(** [os.path.join] of POSIX: a component that starts with a slash
    replaces what came before it, and a slash is put between two
    components unless the path so far is empty or ends with one. *)
Definition starts_with_slash (s : string) : bool :=
  match s with
  | String c _ => Ascii.eqb c "/"
  | EmptyString => false
  end.

Fixpoint ends_with_slash (s : string) : bool :=
  match s with
  | EmptyString => false
  | String c EmptyString => Ascii.eqb c "/"
  | String _ r => ends_with_slash r
  end.

Definition posix_join_step (path b : string) : string :=
  if starts_with_slash b then b
  else if String.eqb path "" || ends_with_slash path then (path ++ b)%string
  else (path ++ "/" ++ b)%string.

Definition posix_join (parts : list string) : string :=
  match parts with
  | [] => ""
  | a :: p => fold_left posix_join_step p a
  end.

(** A first component that is not empty and has no slash at its end, and
    a later component that has none at its start either. *)
Definition plain_first (s : string) : bool :=
  negb (String.eqb s "") && negb (ends_with_slash s).

Definition plain_next (s : string) : bool :=
  plain_first s && negb (starts_with_slash s).

(** Ascending order of file names. *)
Definition name_le (a b : string) : Prop := String.leb a b = true.

(** A computation that has written nothing. *)
Definition silent {A} (m : M A) : Prop := fst m = [].

(** A last line of a timestamp file that lacks its newline, and the time
    that is left of it when four of its nine sub-second digits are cut. *)
Definition unterminated_line (t : datetime) (nanos : Z) : string :=
  string_of_list_ascii
    (pad 4 (year t) ++ "-"%char :: pad 2 (month t) ++ "-"%char ::
     pad 2 (day t) ++ " "%char :: pad 2 (hour t) ++ ":"%char ::
     pad 2 (minute t) ++ ":"%char :: pad 2 (second t) ++ "."%char ::
     pad 9 nanos).

Definition coarse (t : datetime) (nanos : Z) : datetime :=
  mkdatetime (year t) (month t) (day t) (hour t) (minute t) (second t)
             (nanos / 10000 * 10).

(** A drive whose inertial timestamp file ends without a newline, and one
    whose file ends with a blank line. *)
Definition unterminated_dirs : list DriveDir :=
  [mkDriveDir "kitti/2011_09_26/0005" [] []
     (stamp_lines (demo_stamps 2 50000000)
        ++ [unterminated_line (mkdatetime 2011 9 26 13 2 25 0) 951199337])
     []].

Definition blank_line_dirs : list DriveDir :=
  [mkDriveDir "kitti/2011_09_26/0006" [] []
     (stamp_lines (demo_stamps 2 50000000) ++ [newline])
     []].

Definition blank_line_config : @Config (datetime_externals blank_line_dirs) :=
  demo_config (datetime_externals blank_line_dirs) 3 (-25) ["0006"] 3.

(** The first session of a dataset; one without files stands for it in a
    dataset without sessions. *)
Definition first_session {E : Externals} (self : Kitti) : KittiRawData :=
  hd (mkKittiRawData "" "" "" "" 0 0 zero zero [] [] [] []) (dataset self).

Definition one_session_drive
  : @KittiRawData (datetime_externals one_session_dirs) :=
  Eval vm_compute in first_session one_session_dataset.

(** The module of [one_session_globals] without the import of [time]. *)
Definition one_session_globals_without_time
  : @Globals (datetime_externals one_session_dirs) :=
  mkGlobals (Some one_session_config) false.

(** A dataset of one session with window length one. *)
Definition single_scan_dataset : @Kitti integer_externals :=
  @mkKitti integer_externals None "train" 1
    [integer_session [1; 5; 9; 15]] [4] [(0, 3)] 4.

(** A configuration whose split names one date without drives, over an
    empty storage. *)
Definition empty_split_config : @Config (datetime_externals []) :=
  demo_config (datetime_externals []) 3 (-25) [] 3.
Definition empty_split_globals : @Globals (datetime_externals []) :=
  mkGlobals (Some empty_split_config) true.

(* ===================================================================== *)
(** ** Facts about the computation monad *)
(* ===================================================================== *)

Lemma bind_returned {A B} (m : M A) (f : A -> M B) (out : list Event) (b : B) :
  bind m f = (out, Ok b) ->
  exists o1 a o2, m = (o1, Ok a) /\ f a = (o2, Ok b) /\ out = o1 ++ o2.
Proof.
  unfold bind. destruct m as [o1 [a | e]]; [| discriminate].
  destruct (f a) as [o2 r] eqn:Hf. intros H. inversion H; subst.
  exists o1, a, o2. auto.
Qed.

Lemma lift_returned {A} (r : Result A) (out : list Event) (a : A) :
  lift r = (out, Ok a) -> out = [] /\ r = Ok a.
Proof. unfold lift. intros H. inversion H. auto. Qed.

Lemma bind_silent {A B} (a : A) (f : A -> M B) : bind ([], Ok a) f = f a.
Proof. unfold bind. simpl. destruct (f a). reflexivity. Qed.

Lemma bind_lift_Ok {A B} (a : A) (f : A -> M B) : bind (lift (Ok a)) f = f a.
Proof. apply bind_silent. Qed.

Lemma bind_ret {A B} (a : A) (f : A -> M B) : bind (ret a) f = f a.
Proof. apply bind_lift_Ok. Qed.

Lemma bind_raise {A B} (e : Exn) (f : A -> M B) : bind (raise e) f = raise e.
Proof. reflexivity. Qed.

Lemma mapM_length {A B} (f : A -> M B) (l : list A) out ys :
  mapM f l = (out, Ok ys) -> List.length ys = List.length l.
Proof.
  revert out ys. induction l as [| x r IH]; simpl; intros out ys H.
  - inversion H. reflexivity.
  - apply bind_returned in H. destruct H as (o1 & y & o2 & _ & H & _).
    apply bind_returned in H. destruct H as (o3 & ys' & o4 & Hr & H & _).
    inversion H; subst. simpl. f_equal. eapply IH. eassumption.
Qed.

Lemma foldM_invariant {A S} (P : S -> Prop) (body : S -> A -> M S) :
  (forall st x out st', P st -> body st x = (out, Ok st') -> P st') ->
  forall l st out st', P st -> foldM body st l = (out, Ok st') -> P st'.
Proof.
  intros Hbody. induction l as [| x r IH]; simpl; intros st out st' HP H.
  - inversion H; subst. exact HP.
  - apply bind_returned in H. destruct H as (o1 & st1 & o2 & H1 & H2 & _).
    eapply IH; [| exact H2]. eapply Hbody; eassumption.
Qed.

Lemma returned_Some {A} (m : M A) (a : A) :
  returned m = Some a -> exists out, m = (out, Ok a).
Proof.
  unfold returned. destruct m as [out [x | e]]; simpl; intros H;
    [| discriminate].
  inversion H; subst. exists out. reflexivity.
Qed.

(* ===================================================================== *)
(** ** Facts about sequences *)
(* ===================================================================== *)

Lemma py_getitem_nonneg {A} (a : list A) (i : Z) :
  0 <= i < len a ->
  exists x, nth_error a (Z.to_nat i) = Some x /\ py_getitem a i = Ok x.
Proof.
  intros Hi. unfold py_getitem.
  destruct (Z.ltb_spec i 0); [lia |].
  destruct (Z.leb_spec 0 i); [| lia].
  destruct (Z.ltb_spec i (len a)); [| lia]. simpl.
  destruct (nth_error a (Z.to_nat i)) as [x |] eqn:Hn.
  - exists x. auto.
  - apply nth_error_None in Hn. unfold len in Hi. lia.
Qed.

Lemma py_getitem_negative {A} (a : list A) (i : Z) :
  - len a <= i < 0 -> py_getitem a i = py_getitem a (len a + i).
Proof.
  intros Hi. unfold py_getitem.
  destruct (Z.ltb_spec i 0); [| lia].
  destruct (Z.ltb_spec (len a + i) 0); [lia |]. reflexivity.
Qed.

Lemma py_getitem_returned {A} (a : list A) (i : Z) (x : A) :
  py_getitem a i = Ok x ->
  nth_error a (Z.to_nat (if i <? 0 then len a + i else i)) = Some x.
Proof.
  unfold py_getitem.
  destruct ((0 <=? (if i <? 0 then len a + i else i)) &&
            ((if i <? 0 then len a + i else i) <? len a)); [| discriminate].
  destruct (nth_error a _) as [y |]; [| discriminate].
  intros H. inversion H. reflexivity.
Qed.

Lemma argwhere_from_In (mask : list bool) (i j : Z) :
  In j (argwhere_from i mask) <->
  i <= j /\ nth_error mask (Z.to_nat (j - i)) = Some true.
Proof.
  revert i. induction mask as [| b r IH]; intros i; simpl.
  - split; [tauto |]. intros [_ H]. destruct (Z.to_nat (j - i)); discriminate.
  - assert (Hstep : i + 1 <= j ->
              Z.to_nat (j - i) = S (Z.to_nat (j - (i + 1)))) by lia.
    destruct b; simpl; rewrite IH; split.
    + intros [Heq | [Hle Hn]].
      * subst. rewrite Z.sub_diag. simpl. split; [lia | reflexivity].
      * rewrite Hstep by lia. simpl. split; [lia | exact Hn].
    + intros [Hle Hn].
      destruct (Z.eq_dec i j) as [Heq | Hne]; [left; exact Heq | right].
      rewrite Hstep in Hn by lia. simpl in Hn. split; [lia | exact Hn].
    + intros [Hle Hn]. rewrite Hstep by lia. simpl. split; [lia | exact Hn].
    + intros [Hle Hn].
      destruct (Z.eq_dec i j) as [Heq | Hne].
      * subst. rewrite Z.sub_diag in Hn. simpl in Hn. discriminate.
      * rewrite Hstep in Hn by lia. simpl in Hn. split; [lia | exact Hn].
Qed.

Lemma argwhere_from_sorted (mask : list bool) (i : Z) :
  StronglySorted Z.lt (argwhere_from i mask).
Proof.
  revert i. induction mask as [| b r IH]; intros i; simpl.
  - constructor.
  - destruct b; [| apply IH].
    constructor; [apply IH |].
    apply Forall_forall. intros j Hj. apply argwhere_from_In in Hj. lia.
Qed.

Lemma argwhere_In (mask : list bool) (j : Z) :
  In j (argwhere mask) <->
  0 <= j /\ nth_error mask (Z.to_nat j) = Some true.
Proof.
  unfold argwhere. rewrite argwhere_from_In. rewrite Z.sub_0_r. tauto.
Qed.

(* ===================================================================== *)
(** ** The window query of a session *)
(* ===================================================================== *)

Section SessionFacts.
Context {E : Externals}.

Lemma imu_mask_nth (timestamps : list Time) (t0 t1 : Time) (n : nat) :
  nth_error (imu_mask timestamps t0 t1) n = Some true <->
  exists t, nth_error timestamps n = Some t /\
            time_ge t t0 = true /\ time_lt t t1 = true.
Proof.
  unfold imu_mask. rewrite nth_error_map.
  destruct (nth_error timestamps n) as [t |]; simpl; split.
  - intros H. injection H as Hb. apply andb_true_iff in Hb.
    destruct Hb as [Hge Hlt]. exists t. auto.
  - intros (t' & Ht & Hge & Hlt). inversion Ht; subst.
    rewrite Hge, Hlt. reflexivity.
  - discriminate.
  - intros (t' & Ht & _). discriminate.
Qed.

(** What a window query that returns has done on the way. *)
Lemma get_data_returned (self : KittiRawData) (start_index length : Z)
  (out : list Event) (s : Sample) :
  get_data self start_index length = (out, Ok s) ->
  exists t0 t1 otxs rows,
    py_getitem (timestamps_velo self) start_index = Ok t0 /\
    py_getitem (timestamps_velo self) (start_index + length - 1) = Ok t1 /\
    returned (mapM (fun idx => lift (get_velo_image self idx))
                (py_range start_index (start_index + length)))
      = Some (images s) /\
    argwhere (imu_mask (timestamps_imu self) t0 t1) <> [] /\
    returned (mapM (fun index => lift (load_oxt_lazy self index))
                (argwhere (imu_mask (timestamps_imu self) t0 t1)))
      = Some otxs /\
    returned (mapM imu_row otxs) = Some rows /\
    returned (mapM gt_row otxs) = Some (ground_truth s) /\
    imu s = ImuRows rows.
Proof.
  unfold get_data. intros H.
  apply bind_returned in H. destruct H as (? & t0 & ? & H0 & H & _).
  apply lift_returned in H0. destruct H0 as [_ H0].
  apply bind_returned in H. destruct H as (? & t1 & ? & H1 & H & _).
  apply lift_returned in H1. destruct H1 as [_ H1].
  apply bind_returned in H. destruct H as (? & imgs & ? & Himg & H & _).
  apply bind_returned in H. destruct H as (? & imu_ts & ? & Hts & H & _).
  apply bind_returned in H. destruct H as (? & [vals gt] & ? & Hbr & H & _).
  apply bind_returned in H. destruct H as (? & gtv & ? & Hgt & H & _).
  inversion H; subst; clear H.
  destruct gt as [gt |]; [| discriminate].
  inversion Hgt; subst; clear Hgt.
  destruct (len imu_ts =? 0) eqn:Hlen.
  - apply bind_returned in Hbr. destruct Hbr as (? & ? & ? & _ & Hbr & _).
    inversion Hbr.
  - apply bind_returned in Hbr. destruct Hbr as (? & otxs & ? & Hox & Hbr & _).
    apply bind_returned in Hbr. destruct Hbr as (? & rows & ? & Hrows & Hbr & _).
    apply bind_returned in Hbr. destruct Hbr as (? & gts & ? & Hgts & Hbr & _).
    inversion Hbr; subst; clear Hbr.
    exists t0, t1, otxs, rows. simpl.
    repeat split; try assumption.
    + unfold returned. rewrite Himg. reflexivity.
    + intros Hnil. apply mapM_length in Hts. rewrite Hnil in Hts.
      destruct imu_ts; [| discriminate]. discriminate.
    + unfold returned. rewrite Hox. reflexivity.
    + unfold returned. rewrite Hrows. reflexivity.
    + unfold returned. rewrite Hgts. reflexivity.
Qed.

End SessionFacts.

Section SessionClaims.
Context {E : Externals}.

(** C2. A window query with [0 <= start_index], [1 <= length] and
    [start_index + length] within the scan timestamps selects exactly the
    positions [i] of the inertial timestamps with
    [timestamps_velo[start_index] <= timestamps_imu[i] <
     timestamps_velo[start_index + length - 1]], in ascending order, and a
    sample that is returned carries the readings and poses of these
    positions in that order. With scans at 0, 10, 20, 30, a window of two
    scans from scan 0 and inertial samples at 1, 5, 9, 15, the samples at
    1, 5 and 9 are selected and the one at 15 is not. *)
Theorem window_selects_half_open_interval :
  (forall (self : KittiRawData) (start_index length : Z),
     0 <= start_index -> 1 <= length ->
     start_index + length <= len (timestamps_velo self) ->
     exists t0 t1,
       nth_error (timestamps_velo self) (Z.to_nat start_index) = Some t0 /\
       nth_error (timestamps_velo self)
         (Z.to_nat (start_index + length - 1)) = Some t1 /\
       let indices := argwhere (imu_mask (timestamps_imu self) t0 t1) in
       StronglySorted Z.lt indices /\
       (forall i, In i indices <->
          0 <= i /\
          exists t, nth_error (timestamps_imu self) (Z.to_nat i) = Some t /\
                    time_ge t t0 = true /\ time_lt t t1 = true) /\
       (forall out s,
          get_data self start_index length = (out, Ok s) ->
          exists otxs rows,
            returned (mapM (fun index => lift (load_oxt_lazy self index))
                        indices) = Some otxs /\
            returned (mapM imu_row otxs) = Some rows /\
            imu s = ImuRows rows /\
            returned (mapM gt_row otxs) = Some (ground_truth s)))
  /\
  (let self := integer_session [1; 5; 9; 15] in
   argwhere (@imu_mask integer_externals (timestamps_imu self) 0 10)
     = [0; 1; 2] /\
   returned (np_take (timestamps_imu self) [0; 1; 2]) = Some [1; 5; 9] /\
   option_map (@imu integer_externals)
     (returned (@get_data integer_externals self 0 2))
     = Some (@ImuRows integer_externals
               [[0; 0; 0; 0; 0; 0]; [1; 1; 1; 1; 1; 1]; [2; 2; 2; 2; 2; 2]])).
Proof.
  split; [| cbv zeta; split; [reflexivity | split; reflexivity]].
  intros self start_index length Hs Hl Hn.
  destruct (py_getitem_nonneg (timestamps_velo self) start_index)
    as (t0 & Hn0 & Hg0); [lia |].
  destruct (py_getitem_nonneg (timestamps_velo self) (start_index + length - 1))
    as (t1 & Hn1 & Hg1); [lia |].
  exists t0, t1. split; [exact Hn0 |]. split; [exact Hn1 |].
  cbv zeta. split; [apply argwhere_from_sorted |]. split.
  - intros i. rewrite argwhere_In, imu_mask_nth. reflexivity.
  - intros out s Hret. apply get_data_returned in Hret.
    destruct Hret as (t0' & t1' & otxs & rows & H0 & H1 & _ & _ & Hox & Hrows
                      & Hgt & Himu).
    rewrite Hg0 in H0. rewrite Hg1 in H1.
    inversion H0; inversion H1; subst t0' t1'.
    exists otxs, rows. auto.
Qed.

(** C6. A sample that a window query returns has as many rows of inertial
    readings as it has reference poses. *)
Theorem returned_sample_has_equal_counts (self : KittiRawData)
  (start_index length : Z) (out : list Event) (s : Sample) :
  get_data self start_index length = (out, Ok s) ->
  exists rows,
    imu s = ImuRows rows /\
    List.length rows = List.length (ground_truth s).
Proof.
  intros Hret. apply get_data_returned in Hret.
  destruct Hret as (t0 & t1 & otxs & rows & _ & _ & _ & _ & _ & Hrows & Hgt
                    & Himu).
  exists rows. split; [exact Himu |].
  apply returned_Some in Hrows. destruct Hrows as [o1 Hrows].
  apply returned_Some in Hgt. destruct Hgt as [o2 Hgt].
  apply mapM_length in Hrows. apply mapM_length in Hgt. congruence.
Qed.

(** A window without inertial data: the warning is printed, the six zeros
    are bound to [imu_values], and building the result reads the unbound
    [gt]. *)
Lemma get_data_without_imu (self : KittiRawData) (start_index length : Z)
  (t0 t1 : Time) (o : list Event) (imgs : list Image) :
  py_getitem (timestamps_velo self) start_index = Ok t0 ->
  py_getitem (timestamps_velo self) (start_index + length - 1) = Ok t1 ->
  mapM (fun idx => lift (get_velo_image self idx))
       (py_range start_index (start_index + length)) = (o, Ok imgs) ->
  argwhere (imu_mask (timestamps_imu self) t0 t1) = [] ->
  get_data self start_index length
    = (o ++ [WarnNoImu start_index], Err (UnboundLocalError "gt")).
Proof.
  intros H0 H1 Himg Hnil. unfold get_data.
  rewrite H0, bind_lift_Ok, H1, bind_lift_Ok, Himg, Hnil.
  reflexivity.
Qed.

(** C10. For [-N <= idx < 0], with [N] the number of scans of the session,
    [get_velo] and [get_velo_image] decode the scan file at position
    [N + idx]: the index wraps around and no IndexError comes from the
    lookup. *)
Theorem negative_scan_index_wraps (self : KittiRawData) (idx : Z) :
  - KittiRawData_len self <= idx < 0 ->
  exists f,
    nth_error (velo_files self) (Z.to_nat (KittiRawData_len self + idx))
      = Some f /\
    get_velo self idx = load_velo_scan f /\
    get_velo_image self idx
      = range_image (image_height self) (image_width self)
                    (fov_up self) (fov_down self) f /\
    get_velo self idx = get_velo self (KittiRawData_len self + idx) /\
    get_velo_image self idx
      = get_velo_image self (KittiRawData_len self + idx).
Proof.
  unfold KittiRawData_len, get_velo, get_velo_image. intros Hi.
  rewrite (py_getitem_negative (velo_files self) idx Hi).
  destruct (py_getitem_nonneg (velo_files self) (len (velo_files self) + idx))
    as (f & Hn & Hg); [lia |].
  exists f. rewrite Hg. simpl. auto.
Qed.

End SessionClaims.

(** C5. One scan pair at 0 and 10 and a single inertial sample at 15: the
    window of two scans from scan 0 holds no inertial timestamp; the
    warning is printed once and the query ends in UnboundLocalError for
    [gt] instead of returning a sample. *)
Theorem empty_window_raises_unbound_gt :
  @get_data integer_externals (integer_session [15]) 0 2
    = ([WarnNoImu 0], Err (UnboundLocalError "gt")).
Proof. reflexivity. Qed.

(* ===================================================================== *)
(** ** The bin table *)
(* ===================================================================== *)

Lemma end_of_cons (seq_size prev l : Z) (r : list Z) :
  end_of seq_size prev (l :: r) = end_of seq_size (prev + 1 + l - seq_size) r.
Proof. reflexivity. Qed.

Lemma end_of_snoc (seq_size prev l : Z) (ls : list Z) :
  end_of seq_size prev (ls ++ [l])
    = end_of seq_size prev ls + 1 + l - seq_size.
Proof. unfold end_of. rewrite fold_left_app. reflexivity. Qed.

Lemma bins_of_snoc (seq_size l : Z) (ls : list Z) (prev : Z) :
  bins_of seq_size prev (ls ++ [l])
    = bins_of seq_size prev ls
        ++ [(end_of seq_size prev ls + 1,
             end_of seq_size prev ls + 1 + l - seq_size)].
Proof.
  revert prev. induction ls as [| x r IH]; intros prev; simpl.
  - reflexivity.
  - rewrite IH. reflexivity.
Qed.

Lemma bins_of_length (seq_size : Z) (ls : list Z) (prev : Z) :
  List.length (bins_of seq_size prev ls) = List.length ls.
Proof.
  revert prev. induction ls as [| x r IH]; intros prev; simpl; auto.
Qed.

(** The bin of the session at position [k]. *)
Lemma bins_of_nth (seq_size : Z) (ls : list Z) (prev : Z) (k : nat) (l : Z) :
  nth_error ls k = Some l ->
  exists a, nth_error (bins_of seq_size prev ls) k = Some (a, a + l - seq_size).
Proof.
  revert prev k. induction ls as [| x r IH]; intros prev k H.
  - destruct k; discriminate.
  - destruct k as [| k]; simpl in *.
    + inversion H; subst. eexists. reflexivity.
    + apply IH. exact H.
Qed.

Lemma bins_of_contiguous (seq_size : Z) (ls : list Z) (prev : Z) :
  contiguous (bins_of seq_size prev ls).
Proof.
  revert prev. induction ls as [| x r IH]; intros prev k b b' Hk Hk'.
  - destruct k; discriminate.
  - destruct k as [| k]; simpl in Hk, Hk'.
    + inversion Hk; subst. destruct r as [| y r']; simpl in Hk';
        [discriminate |]. inversion Hk'; subst. reflexivity.
    + eapply IH; eassumption.
Qed.

Lemma end_of_sum (seq_size : Z) (ls : list Z) (prev : Z) :
  end_of seq_size prev ls
    = prev + sum_Z (map (fun l => l - seq_size + 1) ls).
Proof.
  revert prev. induction ls as [| x r IH]; intros prev.
  - unfold end_of, sum_Z. simpl. lia.
  - rewrite end_of_cons, IH. unfold sum_Z. simpl. lia.
Qed.

Lemma flatten_bins_app (b1 b2 : list (Z * Z)) :
  flatten_bins (b1 ++ b2) = flatten_bins b1 ++ flatten_bins b2.
Proof. unfold flatten_bins. apply flat_map_app. Qed.

(** [self.bins.flatten()[-1]] is the end of the last bin, and raises when
    there is no session. *)
Lemma last_of_flatten_bins (seq_size : Z) (ls : list Z) (prev last : Z) :
  py_getitem (flatten_bins (bins_of seq_size prev ls)) (-1) = Ok last ->
  ls <> [] /\ last = end_of seq_size prev ls.
Proof.
  destruct ls as [| x r]; [intros H; vm_compute in H; discriminate |].
  destruct (@exists_last _ (x :: r)) as (ls' & l & Heq); [discriminate |].
  rewrite Heq. intros H. split; [destruct ls'; discriminate |].
  apply py_getitem_returned in H.
  rewrite bins_of_snoc, flatten_bins_app in H. rewrite end_of_snoc.
  simpl in H. unfold len in H. rewrite length_app in H. simpl in H.
  replace (Z.to_nat _) with
    (List.length (flatten_bins (bins_of seq_size prev ls')) + 1)%nat
    in H by lia.
  rewrite nth_error_app2 in H by lia.
  replace (_ + 1 - _)%nat with 1%nat in H by lia.
  simpl in H. inversion H. reflexivity.
Qed.

(** An index between the end of the previous bin and the end of the last
    one is found, in the first bin that holds it. *)
Lemma find_bin_covers (seq_size : Z) (ls : list Z) (prev i index : Z) :
  prev < index <= end_of seq_size prev ls ->
  exists (n : nat) (l a : Z),
    nth_error ls n = Some l /\
    nth_error (bins_of seq_size prev ls) n = Some (a, a + l - seq_size) /\
    a <= index <= a + l - seq_size /\
    find_bin i (bins_of seq_size prev ls) index = (index - a, i + Z.of_nat n) /\
    forall j b, (j < n)%nat ->
      nth_error (bins_of seq_size prev ls) j = Some b -> ~ in_bin index b.
Proof.
  revert prev i. induction ls as [| x r IH]; intros prev i Hidx.
  - unfold end_of in Hidx. simpl in Hidx. lia.
  - simpl. rewrite end_of_cons in Hidx.
    destruct (Z.leb_spec (prev + 1) index) as [Hlo | Hlo]; [| lia].
    destruct (Z.leb_spec index (prev + 1 + x - seq_size)) as [Hhi | Hhi]; simpl.
    + exists 0%nat, x, (prev + 1). simpl.
      repeat split; try reflexivity; try lia.
      f_equal. lia.
    + destruct (IH (prev + 1 + x - seq_size) (i + 1)) as
        (n & l & a & Hn & Hb & Hin & Hfind & Hfirst); [lia |].
      exists (S n), l, a. simpl.
      repeat split; try assumption; try lia.
      * rewrite Hfind. f_equal. lia.
      * intros j b Hj Hjb. destruct j as [| j]; simpl in Hjb.
        -- inversion Hjb; subst. unfold in_bin. simpl. lia.
        -- apply (Hfirst j b); [lia | exact Hjb].
Qed.

(** When every session has at least [seq_size] scans, the bins lie one
    after the other between the end of the previous bin and the end of the
    last one. *)
Lemma bins_of_within (seq_size : Z) (ls : list Z) (prev : Z) :
  Forall (fun l => seq_size <= l) ls ->
  prev <= end_of seq_size prev ls /\
  forall j b, nth_error (bins_of seq_size prev ls) j = Some b ->
    prev < fst b /\ snd b <= end_of seq_size prev ls.
Proof.
  revert prev. induction ls as [| x r IH]; intros prev Hlong.
  - split; [unfold end_of; simpl; lia |]. intros j b H.
    destruct j; discriminate.
  - inversion Hlong as [| ? ? Hx Hr]; subst.
    rewrite end_of_cons.
    destruct (IH (prev + 1 + x - seq_size) Hr) as [Hend Hbins].
    split; [lia |]. intros j b Hj. destruct j as [| j]; simpl in Hj.
    + inversion Hj; subst. simpl. lia.
    + apply Hbins in Hj. lia.
Qed.

Lemma find_bin_outside (i index : Z) (bins : list (Z * Z)) :
  (forall j b, nth_error bins j = Some b -> ~ in_bin index b) ->
  find_bin i bins index = (-1, -1).
Proof.
  revert i. induction bins as [| [a b] r IH]; intros i Hout; simpl.
  - reflexivity.
  - assert (Hab : ~ in_bin index (a, b)) by (apply (Hout 0%nat); reflexivity).
    unfold in_bin in Hab. simpl in Hab.
    destruct (Z.leb_spec a index); destruct (Z.leb_spec index b); simpl;
      try lia; apply IH; intros j b' Hj; apply (Hout (S j)); exact Hj.
Qed.

(** With sessions of at least [seq_size] scans no two bins share an
    index. *)
Lemma bins_of_disjoint (seq_size : Z) (ls : list Z) (prev index : Z)
  (j n : nat) (b b' : Z * Z) :
  Forall (fun l => seq_size <= l) ls ->
  nth_error (bins_of seq_size prev ls) j = Some b ->
  nth_error (bins_of seq_size prev ls) n = Some b' ->
  in_bin index b -> in_bin index b' -> j = n.
Proof.
  revert prev j n. induction ls as [| x r IH]; intros prev j n Hlong Hj Hn Hb Hb'.
  - destruct j; discriminate.
  - inversion Hlong as [| ? ? Hx Hr]; subst.
    pose proof (bins_of_within seq_size r (prev + 1 + x - seq_size) Hr)
      as [_ Hrest].
    unfold in_bin in *.
    destruct j as [| j]; destruct n as [| n]; simpl in Hj, Hn.
    + reflexivity.
    + inversion Hj; subst. apply Hrest in Hn. simpl in Hb. lia.
    + inversion Hn; subst. apply Hrest in Hj. simpl in Hb'. lia.
    + f_equal. eapply IH; eassumption.
Qed.

(* ===================================================================== *)
(** ** Construction of the dataset *)
(* ===================================================================== *)

Section KittiFacts.
Context {E : Externals}.

Lemma drive_step_invariant (root_path : string) (ds_config : DsConfig)
  (seq_size : Z) (date : string) (st : LoopState) (drive : string)
  (out : list Event) (st' : LoopState) :
  loop_invariant seq_size st ->
  drive_step root_path ds_config seq_size date st drive = (out, Ok st') ->
  loop_invariant seq_size st'.
Proof.
  intros (Hlen & Hbins & Hlast) H. unfold drive_step in H.
  apply bind_returned in H. destruct H as (? & ds & ? & _ & H & _).
  inversion H; subst; clear H. unfold loop_invariant. simpl.
  rewrite map_app, bins_of_snoc, end_of_snoc, <- Hlen, <- Hbins, <- Hlast.
  simpl. auto.
Qed.

(** A dataset that was constructed: the configuration was bound to [cfg],
    there is at least one session, and the bin table is the one of the
    session lengths. *)
Lemma Kitti_init_returned (g : Globals) (config : Config) (ds_type : string)
  (transform : option Transform) (self : Kitti) :
  returned (Kitti_init g config ds_type transform) = Some self ->
  exists c,
    cfg g = Some c /\
    seq_size self = sequence_size c /\
    length_each_drive self = map KittiRawData_len (dataset self) /\
    length_each_drive self <> [] /\
    bins self = bins_of (seq_size self) (-1) (length_each_drive self) /\
    self_length self
      = end_of (seq_size self) (-1) (length_each_drive self) + 1.
Proof.
  intros H. apply returned_Some in H. destruct H as [out H].
  unfold Kitti_init, global_cfg in H.
  destruct (cfg g) as [c |]; [| discriminate]. exists c.
  rewrite !bind_ret in H.
  apply bind_returned in H. destruct H as (? & items & ? & _ & H & _).
  apply bind_returned in H. destruct H as (? & st & ? & Hloop & H & _).
  apply bind_returned in H. destruct H as (? & last & ? & Hlast & H & _).
  apply lift_returned in Hlast. destruct Hlast as [_ Hlast].
  apply bind_returned in H. destruct H as (? & ? & ? & _ & H & _).
  apply bind_returned in H. destruct H as (? & ? & ? & _ & H & _).
  apply bind_returned in H. destruct H as (? & ? & ? & _ & H & _).
  inversion H; subst; clear H. simpl.
  assert (Hinv : loop_invariant (sequence_size c) st).
  { revert Hloop.
    apply (foldM_invariant (loop_invariant (sequence_size c))).
    - intros st0 [date drives] o st1 Hst0.
      apply (foldM_invariant (loop_invariant (sequence_size c)));
        [| exact Hst0].
      intros st2 drive o' st3 Hst2 Hstep.
      eapply drive_step_invariant; eassumption.
    - unfold loop_invariant. simpl. auto. }
  destruct Hinv as (Hlen & Hbins & Hend).
  rewrite Hbins in Hlast. apply last_of_flatten_bins in Hlast.
  destruct Hlast as [Hne ->].
  repeat split; first [assumption | reflexivity].
Qed.

Lemma lengths_long (self : Kitti) :
  length_each_drive self = map KittiRawData_len (dataset self) ->
  (forall s, In s (dataset self) -> seq_size self <= KittiRawData_len s) ->
  Forall (fun l => seq_size self <= l) (length_each_drive self).
Proof.
  intros -> Hlong. apply Forall_forall. intros l Hl.
  apply in_map_iff in Hl. destruct Hl as (s & <- & Hs). auto.
Qed.

End KittiFacts.

Section KittiClaims.
Context {E : Externals}.

(** C3. After construction from sessions that all have at least
    [seq_size] scans, the first bin starts at 0, the bin of a session ends
    at its start plus the session length minus [seq_size], the start of a
    bin is one more than the end of the bin before it, and the dataset
    length is the sum over the sessions of length minus [seq_size] plus
    one. Sessions of 5 and 4 scans with [seq_size] 3 give the bins [0,2]
    and [3,4] and the length 5. *)
Theorem bin_table_after_construction :
  (forall (g : Globals) (config : Config) (ds_type : string)
          (transform : option Transform) (self : Kitti),
     returned (Kitti_init g config ds_type transform) = Some self ->
     (forall s, In s (dataset self) -> seq_size self <= KittiRawData_len s) ->
     (exists b rest, bins self = b :: rest /\ fst b = 0) /\
     Forall2 (fun s b => snd b = fst b + KittiRawData_len s - seq_size self)
             (dataset self) (bins self) /\
     contiguous (bins self) /\
     Kitti_len self
       = sum_Z (map (fun s => KittiRawData_len s - seq_size self + 1)
                    (dataset self)))
  /\
  option_map (fun self => (length_each_drive self, bins self, Kitti_len self))
    (returned (Kitti_init two_session_globals two_session_config "train" None))
    = Some ([5; 4], [(0, 2); (3, 4)], 5).
Proof.
  split; [| reflexivity].
  intros g config ds_type transform self Hinit _.
  apply Kitti_init_returned in Hinit.
  destruct Hinit as (c & _ & _ & Hlen & Hne & Hbins & Htotal).
  unfold Kitti_len. rewrite Htotal, Hbins, Hlen.
  repeat split.
  - destruct (dataset self) as [| s r]; [rewrite Hlen in Hne; contradiction |].
    simpl. eexists. eexists. split; reflexivity.
  - clear Hlen Hne Hbins Htotal. generalize (-1).
    induction (dataset self) as [| s r IH]; intros prev;
      simpl; constructor; [simpl; lia | apply IH].
  - apply bins_of_contiguous.
  - rewrite end_of_sum, map_map. lia.
Qed.

(** X19. In a constructed dataset, with the module [time] bound, every
    [index] with [0 <= index < len(self)] is resolved by [__getitem__] to
    one session [s] and one offset with
    [0 <= offset <= len(s) - seq_size]: the session of the first bin that
    holds [index], which is the only such bin when every session has at
    least [seq_size] scans; and the result is that of
    [s.get_data(offset, seq_size)], after the elapsed time is printed. *)
Theorem getitem_resolves_index (g : Globals) (config : Config)
  (ds_type : string) (transform : option Transform) (self : Kitti)
  (index : Z) :
  returned (Kitti_init g config ds_type transform) = Some self ->
  time_imported g = true ->
  0 <= index < Kitti_len self ->
  exists (n : nat) (s : KittiRawData) (b : Z * Z) (offset : Z),
    find_bin 0 (bins self) index = (offset, Z.of_nat n) /\
    nth_error (dataset self) n = Some s /\
    nth_error (bins self) n = Some b /\
    in_bin index b /\
    offset = index - fst b /\
    0 <= offset <= KittiRawData_len s - seq_size self /\
    (forall j b', (j < n)%nat ->
       nth_error (bins self) j = Some b' -> ~ in_bin index b') /\
    ((forall s', In s' (dataset self) ->
        seq_size self <= KittiRawData_len s') ->
     forall j b', nth_error (bins self) j = Some b' ->
       in_bin index b' -> j = n) /\
    Kitti_getitem g self index
      = (let! data := get_data s offset (seq_size self) in
         emit DeltaTime;;
         ret (Some data)).
Proof.
  intros Hinit Htime Hidx.
  apply Kitti_init_returned in Hinit.
  destruct Hinit as (c & _ & _ & Hlen & _ & Hbins & Htotal).
  unfold Kitti_len in Hidx. rewrite Htotal in Hidx.
  destruct (find_bin_covers (seq_size self) (length_each_drive self)
              (-1) 0 index) as (n & l & a & Hn & Hb & Hin & Hfind & Hfirst);
    [lia |].
  rewrite <- Hbins in Hb, Hfind, Hfirst.
  rewrite Hlen, nth_error_map in Hn.
  destruct (nth_error (dataset self) n) as [s |] eqn:Hs; [| discriminate].
  simpl in Hn. inversion Hn as [Hl].
  exists n, s, (a, a + l - seq_size self), (index - a).
  simpl. repeat split; try assumption; try lia.
  - unfold in_bin. simpl. lia.
  - unfold in_bin. simpl. lia.
  - intros Hlong j b' Hj Hjin.
    rewrite Hbins in Hj, Hb.
    eapply (bins_of_disjoint (seq_size self) (length_each_drive self) (-1)
              index j n b' (a, a + l - seq_size self));
      [apply lengths_long; assumption | exact Hj | exact Hb | exact Hjin
      | exact Hin].
  - unfold Kitti_getitem. rewrite Hfind. simpl.
    destruct (Z.ltb_spec (index - a) 0); [lia |].
    destruct (Z.ltb_spec (Z.of_nat n) 0); [lia |]. simpl.
    unfold time_time. rewrite Htime, bind_ret.
    destruct (py_getitem_nonneg (dataset self) (Z.of_nat n)) as (s' & Hs' & Hg).
    { assert (Hlt : (n < List.length (dataset self))%nat)
        by (apply nth_error_Some; congruence).
      unfold len. lia. }
    rewrite Nat2Z.id, Hs in Hs'. inversion Hs'; subst s'.
    rewrite Hg.
    destruct (get_data s (index - a) (seq_size self)) as [o [d | e]];
      reflexivity.
Qed.

(** C7, as the code has it. In a constructed dataset whose sessions all
    have at least [seq_size] scans, [__getitem__] at an [index] that is
    negative or not smaller than [len(self)] prints that no bin was found
    and returns [None]; no exception is raised. *)
Theorem getitem_outside_returns_None (g : Globals) (config : Config)
  (ds_type : string) (transform : option Transform) (self : Kitti)
  (index : Z) :
  returned (Kitti_init g config ds_type transform) = Some self ->
  (forall s, In s (dataset self) -> seq_size self <= KittiRawData_len s) ->
  index < 0 \/ Kitti_len self <= index ->
  Kitti_getitem g self index = ([ErrNoBins], Ok None).
Proof.
  intros Hinit Hlong Hidx.
  apply Kitti_init_returned in Hinit.
  destruct Hinit as (c & _ & _ & Hlen & _ & Hbins & Htotal).
  unfold Kitti_len in Hidx. rewrite Htotal in Hidx.
  pose proof (bins_of_within (seq_size self) (length_each_drive self) (-1)
                (lengths_long self Hlen Hlong)) as [_ Hwithin].
  unfold Kitti_getitem. rewrite find_bin_outside; [reflexivity |].
  intros j b Hj. rewrite Hbins in Hj. apply Hwithin in Hj.
  unfold in_bin. lia.
Qed.

(** C4, as the code has it. Construction does not compare the session
    lengths with [seq_size]: in a constructed dataset a session with fewer
    scans than [seq_size] has the bin from its start to its start plus
    length minus [seq_size], which ends before it starts and holds no
    index. *)
Theorem short_session_gets_empty_bin (g : Globals) (config : Config)
  (ds_type : string) (transform : option Transform) (self : Kitti)
  (n : nat) (s : KittiRawData) :
  returned (Kitti_init g config ds_type transform) = Some self ->
  nth_error (dataset self) n = Some s ->
  KittiRawData_len s < seq_size self ->
  exists b,
    nth_error (bins self) n = Some b /\
    snd b = fst b + KittiRawData_len s - seq_size self /\
    snd b < fst b /\
    forall index, ~ in_bin index b.
Proof.
  intros Hinit Hs Hshort.
  apply Kitti_init_returned in Hinit.
  destruct Hinit as (c & _ & _ & Hlen & _ & Hbins & _).
  destruct (bins_of_nth (seq_size self) (length_each_drive self) (-1) n
              (KittiRawData_len s)) as [a Ha].
  { rewrite Hlen, nth_error_map, Hs. reflexivity. }
  rewrite <- Hbins in Ha. eexists. split; [exact Ha |]. simpl.
  repeat split; try lia. unfold in_bin. simpl. lia.
Qed.

(** C9. [Kitti.__init__] gives the same result whatever is passed as
    [config], and where the module has no binding for [cfg] it raises
    NameError before anything else is done. *)
Theorem init_reads_global_cfg (g : Globals) (config : Config)
  (ds_type : string) (transform : option Transform) :
  (forall config', Kitti_init g config' ds_type transform
                   = Kitti_init g config ds_type transform) /\
  (cfg g = None ->
   Kitti_init g config ds_type transform = ([], Err (NameError "cfg"))).
Proof.
  split; [reflexivity |].
  intros Hcfg. unfold Kitti_init, global_cfg. rewrite Hcfg. reflexivity.
Qed.

(** Without [time] in the module, a lookup that found its bin raises
    NameError at the first clock read. *)
Lemma getitem_without_time (g : Globals) (self : Kitti) (index : Z) :
  time_imported g = false ->
  fst (find_bin 0 (bins self) index) >= 0 ->
  snd (find_bin 0 (bins self) index) >= 0 ->
  Kitti_getitem g self index = ([], Err (NameError "time")).
Proof.
  intros Htime Hidx Hdrive. unfold Kitti_getitem.
  destruct (find_bin 0 (bins self) index) as [idx num_drive]. simpl in *.
  destruct (Z.ltb_spec idx 0); [lia |].
  destruct (Z.ltb_spec num_drive 0); [lia |]. simpl.
  unfold time_time. rewrite Htime. reflexivity.
Qed.

End KittiClaims.

(** C1. The source fails the claim where the module is imported and not
    run as a script, so that [time] is unbound: for one session with five
    scans and window length three the dataset has the indices 0, 1, 2,
    the lookup at 0 finds bin 0 with offset 0, and [__getitem__] raises
    NameError at [time.time()] instead of returning the window. *)
Theorem getitem_raises_NameError_on_import :
  returned (Kitti_init one_session_globals_without_time one_session_config
              "train" None) = Some one_session_dataset /\
  Kitti_len one_session_dataset = 3 /\
  find_bin 0 (bins one_session_dataset) 0 = (0, 0) /\
  Kitti_getitem one_session_globals_without_time one_session_dataset 0
    = ([], Err (NameError "time")).
Proof. repeat split; reflexivity. Qed.


(* ===================================================================== *)
(** ** The claims at the example recordings *)
(* ===================================================================== *)

Lemma window_selects_half_open_interval_witness :
  exists t0 t1,
    nth_error [0; 10; 20; 30] 0 = Some t0 /\
    nth_error [0; 10; 20; 30] 1 = Some t1 /\
    StronglySorted Z.lt
      (argwhere (@imu_mask integer_externals [1; 5; 9; 15] t0 t1)).
Proof.
  destruct (proj1 (@window_selects_half_open_interval integer_externals)
              (integer_session [1; 5; 9; 15]) 0 2)
    as (t0 & t1 & H0 & H1 & Hs & _);
    [lia | lia | unfold len; simpl; lia |].
  exists t0, t1. split; [exact H0 |]. split; [exact H1 | exact Hs].
Defined.

Lemma returned_sample_has_equal_counts_witness :
  exists rows,
    @imu integer_externals integer_sample = @ImuRows integer_externals rows /\
    List.length rows = List.length (@ground_truth integer_externals integer_sample).
Proof.
  exact (@returned_sample_has_equal_counts integer_externals
           (integer_session [1; 5; 9; 15]) 0 2 [] integer_sample eq_refl).
Defined.

Lemma negative_scan_index_wraps_witness :
  exists f,
    nth_error (@velo_files integer_externals (integer_session [15])) 3 = Some f /\
    @get_velo integer_externals (integer_session [15]) (-1) = Ok f.
Proof.
  destruct (@negative_scan_index_wraps integer_externals
              (integer_session [15]) (-1)) as (f & Hf & Hv & _).
  - unfold KittiRawData_len, len. simpl. lia.
  - exists f. split; [exact Hf | exact Hv].
Defined.

(** C7, as stated, fails: one session with five scans and window length
    three has the indices 0, 1, 2, and the lookup at 3 returns [None]
    after printing; it does not raise. *)
Lemma getitem_past_the_end_is_not_an_error :
  returned (Kitti_init one_session_globals one_session_config "train" None)
    = Some one_session_dataset /\
  length_each_drive one_session_dataset = [5] /\
  seq_size one_session_dataset = 3 /\
  Kitti_getitem one_session_globals one_session_dataset 3
    = ([ErrNoBins], Ok None).
Proof. repeat split; reflexivity. Qed.

(** C4, as stated, fails: a session with two scans and window length
    three is accepted; construction returns a dataset with the bin
    [0, -1] and the length 0. *)
Lemma short_session_is_accepted :
  returned (Kitti_init short_session_globals short_session_config
              "train" None) = Some short_session_dataset /\
  length_each_drive short_session_dataset = [2] /\
  seq_size short_session_dataset = 3 /\
  bins short_session_dataset = [(0, -1)] /\
  Kitti_len short_session_dataset = 0.
Proof. repeat split; reflexivity. Qed.

Lemma bin_table_after_construction_witness :
  (exists b rest, bins two_session_dataset = b :: rest /\ fst b = 0) /\
  Forall2 (fun s b => snd b = fst b + KittiRawData_len s
                               - seq_size two_session_dataset)
          (dataset two_session_dataset) (bins two_session_dataset) /\
  contiguous (bins two_session_dataset) /\
  Kitti_len two_session_dataset
    = sum_Z (map (fun s => KittiRawData_len s
                           - seq_size two_session_dataset + 1)
                 (dataset two_session_dataset)).
Proof.
  apply (proj1 (@bin_table_after_construction
                  (datetime_externals two_session_dirs))
           two_session_globals two_session_config "train" None
           two_session_dataset eq_refl).
  intros s [<- | [<- | []]]; discriminate.
Defined.

Lemma getitem_resolves_index_witness :
  exists (n : nat) s b offset,
    find_bin 0 (bins one_session_dataset) 2 = (offset, Z.of_nat n) /\
    nth_error (dataset one_session_dataset) n = Some s /\
    nth_error (bins one_session_dataset) n = Some b /\
    0 <= offset <= KittiRawData_len s - seq_size one_session_dataset /\
    Kitti_getitem one_session_globals one_session_dataset 2
      = (let! data := get_data s offset (seq_size one_session_dataset) in
         emit DeltaTime;;
         ret (Some data)).
Proof.
  destruct (@getitem_resolves_index (datetime_externals one_session_dirs)
              one_session_globals one_session_config "train" None
              one_session_dataset 2 eq_refl eq_refl)
    as (n & s & b & offset & Hfind & Hs & Hb & _ & _ & Hoff & _ & _ & Hget).
  - split; [discriminate | reflexivity].
  - exists n, s, b, offset. repeat split; try assumption; apply Hoff.
Defined.

Lemma getitem_outside_returns_None_witness :
  Kitti_getitem one_session_globals one_session_dataset (-1)
    = ([ErrNoBins], Ok None).
Proof.
  apply (@getitem_outside_returns_None (datetime_externals one_session_dirs)
           one_session_globals one_session_config "train" None
           one_session_dataset (-1) eq_refl).
  - intros s [<- | []]. discriminate.
  - left. reflexivity.
Defined.

(** Why C7 asks for sessions of at least [seq_size] scans: after a
    session of five scans, one without scans has the bin [3, 0]; the
    dataset length is 1, and the lookup at 2 still finds the first bin. *)
Lemma short_session_leaves_indices_outside :
  returned (Kitti_init mixed_session_globals mixed_session_config
              "train" None) = Some mixed_session_dataset /\
  bins mixed_session_dataset = [(0, 2); (3, 0)] /\
  Kitti_len mixed_session_dataset = 1 /\
  find_bin 0 (bins mixed_session_dataset) 2 = (2, 0) /\
  option_map (option_map images)
    (returned (Kitti_getitem mixed_session_globals mixed_session_dataset 2))
    = Some (Some ["kitti/2011_09_26/0001/velodyne_points/data/0000000002.txt";
                  "kitti/2011_09_26/0001/velodyne_points/data/0000000003.txt";
                  "kitti/2011_09_26/0001/velodyne_points/data/0000000004.txt"]).
Proof. repeat split; reflexivity. Qed.

Lemma short_session_gets_empty_bin_witness :
  exists b,
    nth_error (bins short_session_dataset) 0 = Some b /\ snd b < fst b.
Proof.
  destruct (dataset short_session_dataset) as [| s r] eqn:Hds;
    [discriminate |].
  destruct (@short_session_gets_empty_bin (datetime_externals short_session_dirs)
              short_session_globals short_session_config "train" None
              short_session_dataset 0 s eq_refl)
    as (b & Hb & _ & Hlt & _).
  - rewrite Hds. reflexivity.
  - inversion Hds. reflexivity.
  - exists b. split; [exact Hb | exact Hlt].
Defined.

Lemma init_reads_global_cfg_witness :
  Kitti_init (mkGlobals None true) one_session_config "train" None
    = ([], Err (NameError "cfg")).
Proof.
  apply (proj2 (@init_reads_global_cfg (datetime_externals one_session_dirs)
                  (mkGlobals None true) one_session_config "train" None)).
  reflexivity.
Defined.

(* ===================================================================== *)
(** ** Parsing the timestamp files *)
(* ===================================================================== *)

Lemma digit_char_spec (d : Z) :
  0 <= d < 10 ->
  is_digit (digit_char d) = true /\ digit_val (digit_char d) = d.
Proof.
  intros Hd.
  assert (Hcases : d = 0 \/ d = 1 \/ d = 2 \/ d = 3 \/ d = 4 \/
                   d = 5 \/ d = 6 \/ d = 7 \/ d = 8 \/ d = 9) by lia.
  repeat (destruct Hcases as [-> | Hcases]; [split; reflexivity |]).
  subst. split; reflexivity.
Qed.

Lemma is_digit_not_space (c : ascii) :
  is_digit c = true -> is_space c = false /\ Ascii.eqb c " " = false.
Proof.
  unfold is_digit, is_space. intros H. apply andb_true_iff in H.
  destruct H as [Hlo Hhi]. apply Nat.leb_le in Hlo.
  split.
  - destruct (Nat.eqb_spec (nat_of_ascii c) 32); [lia |].
    destruct (Nat.leb_spec 9 (nat_of_ascii c)); simpl; [| reflexivity].
    destruct (Nat.leb_spec (nat_of_ascii c) 13); [lia | reflexivity].
  - destruct (Ascii.eqb_spec c " ") as [-> | Hne]; [| reflexivity].
    change (nat_of_ascii " ") with 32%nat in Hlo. lia.
Qed.

Lemma pad_length (k : nat) (n : Z) : List.length (pad k n) = k.
Proof.
  revert n. induction k as [| k IH]; intros n; simpl.
  - reflexivity.
  - rewrite length_app, IH. simpl. lia.
Qed.

Lemma pad_digits (k : nat) (n : Z) :
  Forall (fun c => is_digit c = true) (pad k n).
Proof.
  revert n. induction k as [| k IH]; intros n; simpl.
  - constructor.
  - apply Forall_app. split; [apply IH |].
    constructor; [| constructor].
    apply digit_char_spec. apply Z.mod_pos_bound. lia.
Qed.

Lemma digits_value_snoc (ds : list ascii) (c : ascii) :
  digits_value (ds ++ [c]) = 10 * digits_value ds + digit_val c.
Proof. unfold digits_value. rewrite fold_left_app. reflexivity. Qed.

Lemma pad_value (k : nat) (n : Z) :
  0 <= n < 10 ^ Z.of_nat k -> digits_value (pad k n) = n.
Proof.
  revert n. induction k as [| k IH]; intros n Hn.
  - simpl in *. unfold digits_value. simpl. lia.
  - rewrite Nat2Z.inj_succ, Z.pow_succ_r in Hn by lia.
    simpl. rewrite digits_value_snoc, IH.
    + destruct (digit_char_spec (n mod 10)) as [_ ->];
        [apply Z.mod_pos_bound; lia |].
      pose proof (Z.div_mod n 10). lia.
    + split; [apply Z.div_pos; lia |].
      apply Z.div_lt_upper_bound; lia.
Qed.

(** The sub-second digits: the first [a] of [b + a] digits are the digits
    of the number without its last [b] digits. *)
Lemma pad_app (a b : nat) (n : Z) :
  pad (b + a) n = pad a (n / 10 ^ Z.of_nat b) ++ pad b n.
Proof.
  revert n. induction b as [| b IH]; intros n.
  - simpl. rewrite Z.div_1_r, app_nil_r. reflexivity.
  - change (S b + a)%nat with (S (b + a)).
    cbn [pad]. rewrite IH, <- app_assoc.
    rewrite Nat2Z.inj_succ, Z.pow_succ_r by lia.
    rewrite Z.div_div by lia. reflexivity.
Qed.

Lemma span_digits_all (ds rest : list ascii) :
  Forall (fun c => is_digit c = true) ds ->
  span_digits (List.length ds) (ds ++ rest) = (ds, rest).
Proof.
  induction 1 as [| c ds Hc Hds IH]; simpl.
  - destruct rest; reflexivity.
  - rewrite Hc, IH. reflexivity.
Qed.

Lemma span_digits_pad (k : nat) (n : Z) (rest : list ascii) :
  span_digits k (pad k n ++ rest) = (pad k n, rest).
Proof.
  rewrite <- (pad_length k n) at 1. apply span_digits_all, pad_digits.
Qed.

Lemma match_number_pad (w : nat) (lo hi v : Z) (rest : list ascii) :
  (1 <= w)%nat -> 0 <= v < 10 ^ Z.of_nat w -> lo <= v <= hi ->
  match_number w lo hi (pad w v ++ rest) = Some (v, rest).
Proof.
  intros Hw Hv Hrange. unfold match_number.
  rewrite span_digits_pad, pad_length, pad_value by exact Hv.
  destruct (Nat.leb_spec 1 w); [| lia].
  destruct (Z.leb_spec lo v); [| lia].
  destruct (Z.leb_spec v hi); [| lia]. reflexivity.
Qed.

(** A padded number of at least one digit starts with a digit. *)
Lemma pad_head (k : nat) (n : Z) :
  (1 <= k)%nat ->
  exists c l, pad k n = c :: l /\ is_digit c = true.
Proof.
  intros Hk. pose proof (pad_length k n) as Hlen.
  pose proof (pad_digits k n) as Hdig.
  destruct (pad k n) as [| c l]; [simpl in Hlen; lia |].
  inversion Hdig; subst. exists c, l. auto.
Qed.

Lemma py_drop_last_app (k : nat) (front back : list ascii) :
  List.length back = k ->
  py_drop_last k (string_of_list_ascii (front ++ back))
    = string_of_list_ascii front.
Proof.
  intros <-. unfold py_drop_last. rewrite list_ascii_of_string_of_list_ascii.
  rewrite length_app, Nat.add_sub, firstn_app, firstn_all, Nat.sub_diag.
  simpl. rewrite app_nil_r. reflexivity.
Qed.

Lemma match_DirY (t : datetime) (v : Z) (rest : list ascii) :
  0 <= v < 10 ^ 4 ->
  match_directive DirY t (pad 4 v ++ rest)
    = Some (mkdatetime v (month t) (day t) (hour t) (minute t) (second t)
              (microsecond t), rest).
Proof.
  intros Hv. unfold match_directive.
  rewrite span_digits_pad, pad_length, pad_value by exact Hv. reflexivity.
Qed.

Lemma match_DirLit (t : datetime) (c : ascii) (rest : list ascii) :
  match_directive (DirLit c) t (c :: rest) = Some (t, rest).
Proof. simpl. rewrite Ascii.eqb_refl. reflexivity. Qed.

Lemma match_DirSpace (t : datetime) (k : nat) (v : Z) (rest : list ascii) :
  (1 <= k)%nat ->
  match_directive DirSpace t (" "%char :: pad k v ++ rest)
    = Some (t, pad k v ++ rest).
Proof.
  intros Hk. destruct (pad_head k v Hk) as (c & l & -> & Hc).
  apply is_digit_not_space in Hc. destruct Hc as [Hc _].
  simpl. rewrite Hc. reflexivity.
Qed.

Lemma match_Dird (t : datetime) (v : Z) (rest : list ascii) :
  1 <= v <= 31 ->
  match_directive Dird t (pad 2 v ++ rest)
    = Some (mkdatetime (year t) (month t) v (hour t) (minute t) (second t)
              (microsecond t), rest).
Proof.
  intros Hv. unfold match_directive.
  destruct (pad_head 2 v) as (c & l & Heq & Hc); [lia |].
  apply is_digit_not_space in Hc. destruct Hc as [_ Hc].
  rewrite Heq. cbn [app]. rewrite Hc.
  change (c :: l ++ rest) with ((c :: l) ++ rest). rewrite <- Heq.
  rewrite match_number_pad; [reflexivity | lia | lia | lia].
Qed.

Lemma match_Dirm (t : datetime) (v : Z) (rest : list ascii) :
  1 <= v <= 12 ->
  match_directive Dirm t (pad 2 v ++ rest)
    = Some (mkdatetime (year t) v (day t) (hour t) (minute t) (second t)
              (microsecond t), rest).
Proof.
  intros Hv. unfold match_directive.
  rewrite match_number_pad; [reflexivity | lia | lia | lia].
Qed.

Lemma match_DirH (t : datetime) (v : Z) (rest : list ascii) :
  0 <= v <= 23 ->
  match_directive DirH t (pad 2 v ++ rest)
    = Some (mkdatetime (year t) (month t) (day t) v (minute t) (second t)
              (microsecond t), rest).
Proof.
  intros Hv. unfold match_directive.
  rewrite match_number_pad; [reflexivity | lia | lia | lia].
Qed.

Lemma match_DirM (t : datetime) (v : Z) (rest : list ascii) :
  0 <= v <= 59 ->
  match_directive DirM t (pad 2 v ++ rest)
    = Some (mkdatetime (year t) (month t) (day t) (hour t) v (second t)
              (microsecond t), rest).
Proof.
  intros Hv. unfold match_directive.
  rewrite match_number_pad; [reflexivity | lia | lia | lia].
Qed.

Lemma match_DirS (t : datetime) (v : Z) (rest : list ascii) :
  0 <= v <= 59 ->
  match_directive DirS t (pad 2 v ++ rest)
    = Some (mkdatetime (year t) (month t) (day t) (hour t) (minute t) v
              (microsecond t), rest).
Proof.
  intros Hv. unfold match_directive.
  rewrite match_number_pad; [reflexivity | lia | lia | lia].
Qed.

Lemma match_Dirf (t : datetime) (v : Z) :
  0 <= v < 10 ^ 6 ->
  match_directive Dirf t (pad 6 v)
    = Some (mkdatetime (year t) (month t) (day t) (hour t) (minute t)
              (second t) v, []).
Proof.
  intros Hv. unfold match_directive.
  rewrite <- (app_nil_r (pad 6 v)) at 1.
  rewrite span_digits_pad, pad_length, pad_value by exact Hv.
  simpl. rewrite Z.mul_1_r. reflexivity.
Qed.

Lemma days_in_month_le (y m : Z) : days_in_month y m <= 31.
Proof.
  unfold days_in_month.
  destruct (m =? 2); [destruct (is_leap y); lia |].
  destruct ((m =? 4) || (m =? 6) || (m =? 9) || (m =? 11)); lia.
Qed.

(** One line of a timestamp file, cut by four characters and parsed, is
    the time of the line with its sub-second part cut to microseconds. *)
Lemma strptime_timestamp_line (t : datetime) (nanos : Z) :
  stamp_ok (t, nanos) ->
  datetime_strptime (py_drop_last 4 (timestamp_line t nanos))
                    "%Y-%m-%d %H:%M:%S.%f"
    = Ok (truncated t nanos).
Proof.
  intros [Hvalid Hnanos]. cbn [fst snd] in *.
  assert (Hbounds := Hvalid). unfold datetime_valid, truncated in Hbounds.
  cbn [year month day hour minute second microsecond] in Hbounds.
  repeat (apply andb_true_iff in Hbounds;
          destruct Hbounds as [Hbounds ?]).
  repeat match goal with
         | H : (_ <=? _) = true |- _ => apply Z.leb_le in H
         end.
  pose proof (days_in_month_le (year t) (month t)) as Hdim.
  unfold timestamp_line.
  change 9%nat with (3 + 6)%nat. rewrite pad_app.
  change (10 ^ Z.of_nat 3) with 1000.
  match goal with
  | |- context [string_of_list_ascii ?L] =>
      replace L with
        ((pad 4 (year t) ++ "-"%char :: pad 2 (month t) ++ "-"%char ::
          pad 2 (day t) ++ " "%char :: pad 2 (hour t) ++ ":"%char ::
          pad 2 (minute t) ++ ":"%char :: pad 2 (second t) ++ "."%char ::
          pad 6 (nanos / 1000))
         ++ (pad 3 nanos ++ list_ascii_of_string newline))
  end.
  2: { repeat (rewrite <- app_assoc || rewrite <- app_comm_cons).
       reflexivity. }
  rewrite py_drop_last_app
    by (rewrite length_app, pad_length; reflexivity).
  unfold datetime_strptime.
  rewrite list_ascii_of_string_of_list_ascii.
  change (compile_format (list_ascii_of_string "%Y-%m-%d %H:%M:%S.%f"))
    with (Ok [DirY; DirLit "-"; Dirm; DirLit "-"; Dird; DirSpace; DirH;
              DirLit ":"; DirM; DirLit ":"; DirS; DirLit "."; Dirf]).
  cbn [rbind match_directives].
  rewrite match_DirY by lia. cbv beta iota.
  rewrite match_DirLit. cbv beta iota.
  rewrite match_Dirm by lia. cbv beta iota.
  rewrite match_DirLit. cbv beta iota.
  rewrite match_Dird by lia. cbv beta iota.
  rewrite match_DirSpace by lia. cbv beta iota.
  rewrite match_DirH by lia. cbv beta iota.
  rewrite match_DirLit. cbv beta iota.
  rewrite match_DirM by lia. cbv beta iota.
  rewrite match_DirLit. cbv beta iota.
  rewrite match_DirS by lia. cbv beta iota.
  rewrite match_DirLit. cbv beta iota.
  rewrite match_Dirf by lia. cbv beta iota.
  cbn [year month day hour minute second microsecond].
  fold (truncated t nanos). rewrite Hvalid. reflexivity.
Qed.

Lemma read_timestamps_stamps (dirs : list DriveDir) (timestamp_file : string)
  (stamps : list (datetime * Z)) :
  storage_readlines dirs timestamp_file = Ok (stamp_lines stamps) ->
  Forall stamp_ok stamps ->
  @read_timestamps (datetime_externals dirs) timestamp_file
    = ([], Ok (map (fun p => truncated (fst p) (snd p)) stamps)).
Proof.
  intros Hlines Hok. unfold read_timestamps.
  change (@readlines (datetime_externals dirs) timestamp_file)
    with (storage_readlines dirs timestamp_file).
  rewrite Hlines, bind_lift_Ok. clear Hlines.
  induction Hok as [| [t nanos] stamps Hp Hrest IH].
  - reflexivity.
  - cbn [stamp_lines map mapM fst snd].
    change (@strptime (datetime_externals dirs)) with datetime_strptime.
    rewrite (strptime_timestamp_line t nanos Hp), bind_lift_Ok.
    fold (stamp_lines stamps).
    change (@strptime (datetime_externals dirs)) with datetime_strptime in IH.
    rewrite IH. reflexivity.
Qed.

(** C8. A session whose two timestamp files consist of lines of the form
    date, time of day, a point, nine sub-second digits and a newline is
    constructed, and its timestamps are the times of the lines with the
    sub-second part cut to microseconds. *)
Theorem session_construction_truncates_timestamps (dirs : list DriveDir)
  (base_path date drive : string)
  (cfg : @DsConfig (datetime_externals dirs))
  (imu_stamps velo_stamps : list (datetime * Z)) :
  storage_readlines dirs
    (path_join [path_join [base_path; date; drive]; "oxts"; "timestamps.txt"])
    = Ok (stamp_lines imu_stamps) ->
  storage_readlines dirs
    (path_join [path_join [base_path; date; drive]; "velodyne_points";
                "timestamps.txt"])
    = Ok (stamp_lines velo_stamps) ->
  Forall stamp_ok imu_stamps ->
  Forall stamp_ok velo_stamps ->
  exists self,
    @KittiRawData_init (datetime_externals dirs) base_path date drive cfg
      = ([], Ok self) /\
    timestamps_imu self = map (fun p => truncated (fst p) (snd p)) imu_stamps /\
    timestamps_velo self
      = map (fun p => truncated (fst p) (snd p)) velo_stamps.
Proof.
  intros Himu Hvelo Hok_imu Hok_velo. unfold KittiRawData_init.
  rewrite (read_timestamps_stamps dirs _ imu_stamps Himu Hok_imu).
  rewrite bind_silent.
  rewrite (read_timestamps_stamps dirs _ velo_stamps Hvelo Hok_velo).
  rewrite bind_silent. eexists. split; [reflexivity |]. split; reflexivity.
Qed.

Lemma demo_stamps_ok (count : nat) (step : Z) :
  0 <= step -> Z.of_nat count * step <= 1000000000 ->
  Forall stamp_ok (demo_stamps count step).
Proof.
  intros Hstep Hcount. unfold demo_stamps. apply Forall_forall.
  intros p Hp. apply in_map_iff in Hp. destruct Hp as (k & <- & Hk).
  apply in_seq in Hk. unfold stamp_ok, datetime_valid, truncated.
  cbn [fst snd year month day hour minute second microsecond].
  assert (Hn : 0 <= Z.of_nat k * step < 1000000000) by nia.
  split; [| exact Hn].
  assert (Hq : 0 <= Z.of_nat k * step / 1000 <= 999999).
  { split; [apply Z.div_pos; lia |].
    apply Z.lt_succ_r. apply Z.div_lt_upper_bound; lia. }
  destruct (Z.leb_spec 0 (Z.of_nat k * step / 1000)); [| lia].
  destruct (Z.leb_spec (Z.of_nat k * step / 1000) 999999); [| lia].
  reflexivity.
Qed.

Lemma session_construction_truncates_timestamps_witness :
  exists self,
    @KittiRawData_init (datetime_externals one_session_dirs)
      "kitti" "2011_09_26" "0001" (datasets_kitti one_session_config)
      = ([], Ok self) /\
    timestamps_imu self
      = map (fun p => truncated (fst p) (snd p)) (demo_stamps 9 50000000) /\
    timestamps_velo self
      = map (fun p => truncated (fst p) (snd p)) (demo_stamps 5 100000000).
Proof.
  apply (session_construction_truncates_timestamps one_session_dirs
           "kitti" "2011_09_26" "0001" (datasets_kitti one_session_config)
           (demo_stamps 9 50000000) (demo_stamps 5 100000000)).
  - reflexivity.
  - reflexivity.
  - apply demo_stamps_ok; lia.
  - apply demo_stamps_ok; lia.
Defined.

(* ===================================================================== *)
(** ** More about list comprehensions and lookups *)
(* ===================================================================== *)

Lemma bind_output {A B} (m : M A) (f : A -> M B) :
  fst (bind m f)
    = fst m ++ match snd m with
               | Ok a => fst (f a)
               | Err _ => []
               end.
Proof.
  destruct m as [o [a | e]]; simpl.
  - destruct (f a). reflexivity.
  - rewrite app_nil_r. reflexivity.
Qed.

Lemma bind_silent_output {A B} (m : M A) (f : A -> M B) :
  silent m -> (forall a, silent (f a)) -> silent (bind m f).
Proof.
  unfold silent. intros Hm Hf. rewrite bind_output, Hm.
  destruct (snd m); [apply Hf | reflexivity].
Qed.

Lemma mapM_silent {A B} (f : A -> M B) (l : list A) :
  (forall x, silent (f x)) -> silent (mapM f l).
Proof.
  intros Hf. induction l as [| x r IH]; simpl; [reflexivity |].
  apply bind_silent_output; [apply Hf |]. intros y.
  apply bind_silent_output; [exact IH |]. intros ys. reflexivity.
Qed.

(** The elements of a comprehension that returned, one by one. *)
Lemma mapM_Forall2 {A B} (f : A -> M B) (l : list A) out ys :
  mapM f l = (out, Ok ys) ->
  Forall2 (fun x y => returned (f x) = Some y) l ys.
Proof.
  revert out ys. induction l as [| x r IH]; simpl; intros out ys H.
  - inversion H. constructor.
  - apply bind_returned in H. destruct H as (o1 & y & o2 & Hx & H & _).
    apply bind_returned in H. destruct H as (o3 & ys' & o4 & Hr & H & _).
    inversion H; subst. constructor; [| eapply IH; eassumption].
    unfold returned. rewrite Hx. reflexivity.
Qed.

Lemma Forall2_nth_right {A B} (R : A -> B -> Prop) (l : list A)
  (ys : list B) (k : nat) (y : B) :
  Forall2 R l ys -> nth_error ys k = Some y ->
  exists x, nth_error l k = Some x /\ R x y.
Proof.
  intros H. revert k. induction H as [| x y' l ys Hxy _ IH]; intros k Hk.
  - destruct k; discriminate.
  - destruct k as [| k]; simpl in *.
    + inversion Hk; subst. exists x. auto.
    + apply IH. exact Hk.
Qed.

Lemma py_getitem_beyond {A} (a : list A) (i : Z) :
  len a <= i -> py_getitem a i = Err IndexError.
Proof.
  intros Hi. unfold py_getitem. pose proof (Zle_0_nat (List.length a)).
  unfold len in *. destruct (Z.ltb_spec i 0); [lia |].
  destruct (Z.leb_spec 0 i); [| lia].
  destruct (Z.ltb_spec i (Z.of_nat (List.length a))); [lia |]. reflexivity.
Qed.

Lemma py_range_length (a b : Z) : List.length (py_range a b) = Z.to_nat (b - a).
Proof. unfold py_range. rewrite length_map, length_seq. reflexivity. Qed.

Lemma argwhere_from_none (i : Z) (mask : list bool) :
  Forall (fun b => b = false) mask -> argwhere_from i mask = [].
Proof.
  intros H. revert i. induction H as [| b r Hb _ IH]; intros i; simpl.
  - reflexivity.
  - rewrite Hb. apply IH.
Qed.

(* ===================================================================== *)
(** ** More about the window query *)
(* ===================================================================== *)

Section WindowFacts.
Context {E : Externals}.

Lemma imu_row_returned (otx : list (OxtsData Scalar)) (row : list Scalar) :
  returned (imu_row otx) = Some row ->
  exists o, py_getitem otx 0 = Ok o /\
    row = [ax (packet o); ay (packet o); az (packet o);
           wx (packet o); wy (packet o); wz (packet o)].
Proof.
  unfold imu_row, returned. destruct (py_getitem otx 0) as [o | e]; simpl.
  - intros H. inversion H. exists o. auto.
  - discriminate.
Qed.

Lemma gt_row_returned (otx : list (OxtsData Scalar)) (pose : list Scalar) :
  returned (gt_row otx) = Some pose ->
  exists o, py_getitem otx 0 = Ok o /\ pose = List.concat (T_w_imu o).
Proof.
  unfold gt_row, returned. destruct (py_getitem otx 0) as [o | e]; simpl.
  - intros H. inversion H. exists o. auto.
  - discriminate.
Qed.

(** X1. A sample that a window query returns holds one image per index
    of [range(start_index, start_index + length)], in that order, each the
    range image of the scan at that index. *)
Theorem returned_sample_images (self : KittiRawData)
  (start_index length : Z) (out : list Event) (s : Sample) :
  get_data self start_index length = (out, Ok s) ->
  List.length (images s) = Z.to_nat length /\
  Forall2 (fun idx image => get_velo_image self idx = Ok image)
          (py_range start_index (start_index + length)) (images s).
Proof.
  intros Hret. apply get_data_returned in Hret.
  destruct Hret as (_ & _ & _ & _ & _ & _ & Himg & _).
  apply returned_Some in Himg. destruct Himg as [o Himg].
  split.
  - apply mapM_length in Himg. rewrite Himg, py_range_length.
    f_equal. lia.
  - apply mapM_Forall2 in Himg.
    eapply Forall2_impl; [| exact Himg].
    intros idx image H. unfold returned, lift in H. simpl in H.
    destruct (get_velo_image self idx); [inversion H; reflexivity |].
    discriminate.
Qed.

(** X2. A window of at least one scan that starts at a valid position and
    runs past the last scan timestamp raises IndexError, before any scan
    is read and without printing. *)
Theorem window_past_the_end_raises (self : KittiRawData)
  (start_index length : Z) :
  0 <= start_index -> 1 <= length ->
  len (timestamps_velo self) < start_index + length ->
  get_data self start_index length = ([], Err IndexError).
Proof.
  intros Hs Hl Hn. unfold get_data.
  destruct (Z.lt_ge_cases start_index (len (timestamps_velo self)))
    as [Hin | Hout].
  - destruct (py_getitem_nonneg (timestamps_velo self) start_index)
      as (t0 & _ & ->); [lia |].
    rewrite bind_lift_Ok, py_getitem_beyond by lia. reflexivity.
  - rewrite py_getitem_beyond by lia. reflexivity.
Qed.

(** A window whose start and stop timestamps are the same selects
    nothing, so it does not return. *)
Lemma get_data_single_scan (self : KittiRawData) (start_index : Z) :
  (forall a b : Time, time_lt a b = negb (time_ge a b)) ->
  returned (get_data self start_index 1) = None.
Proof.
  intros Hcomp.
  destruct (returned (get_data self start_index 1)) as [s |] eqn:Hret;
    [| reflexivity].
  exfalso. apply returned_Some in Hret. destruct Hret as [out Hret].
  apply get_data_returned in Hret.
  destruct Hret as (t0 & t1 & _ & _ & H0 & H1 & _ & Hsel & _).
  replace (start_index + 1 - 1) with start_index in H1 by lia.
  rewrite H0 in H1. inversion H1; subst t1.
  apply Hsel. apply argwhere_from_none. unfold imu_mask.
  apply Forall_forall. intros b Hb. apply in_map_iff in Hb.
  destruct Hb as (t & <- & _). rewrite Hcomp.
  destruct (time_ge t t0); reflexivity.
Qed.

(** X3. Where [<] on timestamps is the complement of [>=], a window of a
    single scan never returns a sample: its start and stop timestamps are
    the same, so no inertial timestamp lies between them. *)
Theorem single_scan_window_never_returns (self : KittiRawData)
  (start_index : Z) :
  (forall a b : Time, time_lt a b = negb (time_ge a b)) ->
  returned (get_data self start_index 1) = None.
Proof.
  intros Hcomp. unfold returned.
  pose proof (get_data_single_scan self start_index Hcomp) as Hnone.
  unfold returned in Hnone.
  destruct (snd (get_data self start_index 1)); [discriminate | reflexivity].
Qed.

Lemma load_oxt_lazy_returned (self : KittiRawData) (index : Z)
  (otx : list (OxtsData Scalar)) :
  load_oxt_lazy self index = Ok otx ->
  exists file,
    py_getitem (oxts_files self) index = Ok file /\
    load_oxts_packets_and_poses [file] = Ok otx.
Proof.
  unfold load_oxt_lazy.
  destruct (py_getitem (oxts_files self) index) as [file | e]; simpl.
  - intros H. exists file. auto.
  - discriminate.
Qed.

(** X4. In a returned sample every inertial reading has six components,
    and the reading and the pose at position [k] are those of the first
    packet that [utils.load_oxts_packets_and_poses] decodes from the
    inertial file at the [k]-th selected index: its six motion fields and
    its flattened transform. *)
Theorem readings_and_poses_are_paired (self : KittiRawData)
  (start_index length : Z) (out : list Event) (s : Sample) :
  get_data self start_index length = (out, Ok s) ->
  exists t0 t1 rows,
    py_getitem (timestamps_velo self) start_index = Ok t0 /\
    py_getitem (timestamps_velo self) (start_index + length - 1) = Ok t1 /\
    imu s = ImuRows rows /\
    Forall (fun row => List.length row = 6%nat) rows /\
    forall k row pose,
      nth_error rows k = Some row ->
      nth_error (ground_truth s) k = Some pose ->
      exists index file otx o,
        nth_error (argwhere (imu_mask (timestamps_imu self) t0 t1)) k
          = Some index /\
        py_getitem (oxts_files self) index = Ok file /\
        load_oxts_packets_and_poses [file] = Ok otx /\
        py_getitem otx 0 = Ok o /\
        row = [ax (packet o); ay (packet o); az (packet o);
               wx (packet o); wy (packet o); wz (packet o)] /\
        pose = List.concat (T_w_imu o).
Proof.
  intros Hret. apply get_data_returned in Hret.
  destruct Hret as (t0 & t1 & otxs & rows & H0 & H1 & _ & _ & Hox & Hrows
                    & Hgt & Himu).
  apply returned_Some in Hox. destruct Hox as [o0 Hox].
  apply returned_Some in Hrows. destruct Hrows as [o1 Hrows].
  apply returned_Some in Hgt. destruct Hgt as [o2 Hgt].
  apply mapM_Forall2 in Hox.
  apply mapM_Forall2 in Hrows. apply mapM_Forall2 in Hgt.
  exists t0, t1, rows.
  split; [exact H0 |]. split; [exact H1 |]. split; [exact Himu |]. split.
  - clear Hgt Himu Hox. induction Hrows as [| otx row l rows' Hrow _ IH];
      [constructor |]. constructor; [| exact IH].
    apply imu_row_returned in Hrow. destruct Hrow as (o & _ & ->).
    reflexivity.
  - intros k row pose Hk Hp.
    destruct (Forall2_nth_right _ _ _ k row Hrows Hk) as (otx & Hotx & Hrow).
    destruct (Forall2_nth_right _ _ _ k pose Hgt Hp) as (otx' & Hotx' & Hpose).
    rewrite Hotx in Hotx'. inversion Hotx'; subst otx'.
    destruct (Forall2_nth_right _ _ _ k otx Hox Hotx)
      as (index & Hindex & Hload).
    assert (Hlazy : load_oxt_lazy self index = Ok otx).
    { unfold returned, lift in Hload. simpl in Hload.
      destruct (load_oxt_lazy self index); [inversion Hload; reflexivity |].
      discriminate. }
    apply load_oxt_lazy_returned in Hlazy. destruct Hlazy as (file & Hf & Hd).
    apply imu_row_returned in Hrow. destruct Hrow as (o & Ho & ->).
    apply gt_row_returned in Hpose. destruct Hpose as (o' & Ho' & ->).
    rewrite Ho in Ho'. inversion Ho'; subst o'.
    exists index, file, otx, o. repeat split; assumption.
Qed.

End WindowFacts.

Section LookupFacts.
Context {E : Externals}.

Lemma imu_row_silent (otx : list (OxtsData Scalar)) : silent (imu_row otx).
Proof.
  unfold imu_row. apply bind_silent_output; [reflexivity |].
  intros o. reflexivity.
Qed.

Lemma gt_row_silent (otx : list (OxtsData Scalar)) : silent (gt_row otx).
Proof.
  unfold gt_row. apply bind_silent_output; [reflexivity |].
  intros o. reflexivity.
Qed.

(** X5. A window query prints at most one line: either it writes
    nothing, or it writes the warning for its start index and ends in the
    UnboundLocalError for [gt]. *)
Theorem window_query_output (self : KittiRawData) (start_index length : Z) :
  silent (get_data self start_index length) \/
  get_data self start_index length
    = ([WarnNoImu start_index], Err (UnboundLocalError "gt")).
Proof.
  unfold get_data.
  destruct (py_getitem (timestamps_velo self) start_index) as [t0 | e0];
    [rewrite bind_lift_Ok | left; reflexivity].
  destruct (py_getitem (timestamps_velo self) (start_index + length - 1))
    as [t1 | e1]; [rewrite bind_lift_Ok | left; reflexivity].
  match goal with
  | |- context [bind (mapM ?f ?l) _] =>
      pose proof (mapM_silent f l (fun idx => eq_refl)) as Himg;
      destruct (mapM f l) as [o [imgs | e]]
  end; unfold silent in Himg; simpl in Himg; subst o;
    [rewrite bind_silent | left; reflexivity].
  unfold np_take.
  match goal with
  | |- context [bind (mapM ?f ?l) _] =>
      pose proof (mapM_silent f l (fun idx => eq_refl)) as Hts;
      destruct (mapM f l) as [o [imu_ts | e]]
  end; unfold silent in Hts; simpl in Hts; subst o;
    [rewrite bind_silent | left; reflexivity].
  destruct (len imu_ts =? 0); [right; reflexivity | left].
  apply bind_silent_output.
  - apply bind_silent_output;
      [apply mapM_silent; intros index; reflexivity |].
    intros otxs. apply bind_silent_output;
      [apply mapM_silent, imu_row_silent |].
    intros rows. apply bind_silent_output;
      [apply mapM_silent, gt_row_silent |].
    intros gts. reflexivity.
  - intros [values [gt |]]; reflexivity.
Qed.

Lemma find_bin_found (bins : list (Z * Z)) (i index : Z) :
  0 <= i ->
  (exists j b, nth_error bins j = Some b /\ in_bin index b) ->
  0 <= fst (find_bin i bins index) /\ 0 <= snd (find_bin i bins index).
Proof.
  revert i. induction bins as [| [a b] r IH]; intros i Hi (j & b' & Hj & Hin).
  - destruct j; discriminate.
  - simpl.
    destruct (Z.leb_spec a index) as [Hlo | Hlo];
      destruct (Z.leb_spec index b) as [Hhi | Hhi]; simpl;
      try (split; lia);
      (apply IH; [lia |]; destruct j as [| j]; simpl in Hj;
       [inversion Hj; subst; unfold in_bin in Hin; simpl in Hin; lia
       | exists j, b'; auto]).
Qed.

(** X6. Whatever the bin table, [__getitem__] answers with the printed
    error and [None] exactly when no bin holds the index. *)
Theorem getitem_None_iff_no_bin (g : Globals) (self : Kitti) (index : Z) :
  Kitti_getitem g self index = ([ErrNoBins], Ok None) <->
  (forall j b, nth_error (bins self) j = Some b -> ~ in_bin index b).
Proof.
  split.
  - intros Hres j b Hj Hin.
    destruct (find_bin_found (bins self) 0 index) as [Hidx Hdrive];
      [lia | exists j, b; auto |].
    apply (f_equal snd) in Hres. revert Hres. unfold Kitti_getitem.
    destruct (find_bin 0 (bins self) index) as [idx num_drive].
    simpl in Hidx, Hdrive.
    destruct (Z.ltb_spec idx 0); [lia |].
    destruct (Z.ltb_spec num_drive 0); [lia |]. cbn [orb].
    unfold time_time. destruct (time_imported g); [| discriminate].
    rewrite bind_ret.
    destruct (py_getitem (dataset self) num_drive) as [ds | e];
      [rewrite bind_lift_Ok | discriminate].
    destruct (get_data ds idx (seq_size self)) as [o [d | e]];
      discriminate.
  - intros Hout. unfold Kitti_getitem.
    rewrite find_bin_outside by exact Hout. reflexivity.
Qed.

(** X7. Where [<] on timestamps is the complement of [>=], a dataset
    with window length one never yields a sample: every lookup either
    raises or returns [None]. *)
Theorem window_length_one_yields_nothing (g : Globals) (self : Kitti)
  (index : Z) :
  (forall a b : Time, time_lt a b = negb (time_ge a b)) ->
  seq_size self = 1 ->
  returned (Kitti_getitem g self index) = None \/
  returned (Kitti_getitem g self index) = Some None.
Proof.
  intros Hcomp Hseq. unfold Kitti_getitem.
  destruct (find_bin 0 (bins self) index) as [idx num_drive].
  destruct ((idx <? 0) || (num_drive <? 0)); [right; reflexivity | left].
  unfold time_time. destruct (time_imported g); [| reflexivity].
  rewrite bind_ret.
  destruct (py_getitem (dataset self) num_drive) as [ds | e];
    [rewrite bind_lift_Ok | reflexivity].
  rewrite Hseq.
  pose proof (get_data_single_scan ds idx Hcomp) as Hnone.
  unfold returned in *.
  destruct (get_data ds idx 1) as [o [d | e]]; [discriminate |].
  reflexivity.
Qed.

(** X8. Where the module has no binding for [time], [__getitem__] of a
    constructed dataset raises NameError at every index from 0 up to the
    dataset length, before any data is read. *)
Theorem getitem_needs_time (g : Globals) (config : Config)
  (ds_type : string) (transform : option Transform) (self : Kitti)
  (index : Z) :
  returned (Kitti_init g config ds_type transform) = Some self ->
  time_imported g = false ->
  0 <= index < Kitti_len self ->
  Kitti_getitem g self index = ([], Err (NameError "time")).
Proof.
  intros Hinit Htime Hidx.
  apply Kitti_init_returned in Hinit.
  destruct Hinit as (c & _ & _ & _ & _ & Hbins & Htotal).
  unfold Kitti_len in Hidx. rewrite Htotal in Hidx.
  destruct (find_bin_covers (seq_size self) (length_each_drive self)
              (-1) 0 index) as (n & l & a & _ & _ & Hin & Hfind & _);
    [lia |].
  rewrite <- Hbins in Hfind.
  apply getitem_without_time; [exact Htime | |]; rewrite Hfind; simpl; lia.
Qed.

End LookupFacts.

(* ===================================================================== *)
(** ** More about the construction of the dataset *)
(* ===================================================================== *)

Lemma dict_getitem_missing {V} (d : list (string * V)) (key : string) :
  ~ In key (map fst d) -> dict_getitem d key = Err (KeyError key).
Proof.
  induction d as [| [k v] r IH]; simpl; intros Hnot.
  - reflexivity.
  - destruct (String.eqb_spec k key) as [-> | Hne].
    + exfalso. apply Hnot. left. reflexivity.
    + apply IH. intros Hin. apply Hnot. right. exact Hin.
Qed.

Lemma config_jobs_cons (date : string) (drives : list string)
  (items : list (string * list string)) :
  config_jobs ((date, drives) :: items)
    = map (pair date) drives ++ config_jobs items.
Proof. reflexivity. Qed.

Section ConstructionFacts.
Context {E : Externals}.

Lemma drive_loop_sessions (root_path : string) (ds_config : DsConfig)
  (seq_size : Z) (date : string) (drives : list string) :
  forall (st : LoopState) (out : list Event) (st' : LoopState),
    foldM (drive_step root_path ds_config seq_size date) st drives
      = (out, Ok st') ->
    exists added,
      st_dataset st' = st_dataset st ++ added /\
      sessions_of root_path ds_config (map (pair date) drives) added.
Proof.
  induction drives as [| drive r IH]; simpl; intros st out st' H.
  - inversion H; subst. exists []. rewrite app_nil_r.
    split; [reflexivity | constructor].
  - apply bind_returned in H. destruct H as (o1 & st1 & o2 & Hstep & H & _).
    apply IH in H. destruct H as (added & Hds & Hadded).
    unfold drive_step in Hstep. apply bind_returned in Hstep.
    destruct Hstep as (o3 & ds & o4 & Hinit & Hstep & _).
    inversion Hstep; subst st1. simpl in Hds.
    exists (ds :: added). split.
    + rewrite Hds, <- app_assoc. reflexivity.
    + constructor; [| exact Hadded]. simpl.
      unfold returned. rewrite Hinit. reflexivity.
Qed.

Lemma date_loop_sessions (root_path : string) (ds_config : DsConfig)
  (seq_size : Z) (items : list (string * list string)) :
  forall (st : LoopState) (out : list Event) (st' : LoopState),
    foldM (fun st '(date, drives) =>
             foldM (drive_step root_path ds_config seq_size date) st drives)
          st items = (out, Ok st') ->
    exists added,
      st_dataset st' = st_dataset st ++ added /\
      sessions_of root_path ds_config (config_jobs items) added.
Proof.
  induction items as [| [date drives] r IH]; simpl; intros st out st' H.
  - inversion H; subst. exists []. rewrite app_nil_r.
    split; [reflexivity | constructor].
  - apply bind_returned in H. destruct H as (o1 & st1 & o2 & Hin & H & _).
    apply drive_loop_sessions in Hin. destruct Hin as (a1 & Hd1 & Ha1).
    apply IH in H. destruct H as (a2 & Hd2 & Ha2).
    exists (a1 ++ a2). split.
    + rewrite Hd2, Hd1, <- app_assoc. reflexivity.
    + unfold sessions_of in *. apply Forall2_app; assumption.
Qed.

(** X9. The sessions of a constructed dataset are those of the (date,
    drive) pairs of the chosen split, one per pair and in the order of
    the configuration, each constructed from the storage root and the
    dataset options. *)
Theorem dataset_follows_configuration (g : Globals) (config : Config)
  (ds_type : string) (transform : option Transform) (self : Kitti) :
  returned (Kitti_init g config ds_type transform) = Some self ->
  exists c items,
    cfg g = Some c /\
    dict_getitem (cfg_splits (datasets_kitti c)) ds_type = Ok items /\
    sessions_of (cfg_root_path (datasets_kitti c)) (datasets_kitti c)
                (config_jobs items) (dataset self).
Proof.
  intros H. apply returned_Some in H. destruct H as [out H].
  unfold Kitti_init, global_cfg in H.
  destruct (cfg g) as [c |]; [| discriminate].
  rewrite !bind_ret in H.
  apply bind_returned in H. destruct H as (? & items & ? & Hitems & H & _).
  apply lift_returned in Hitems. destruct Hitems as [_ Hitems].
  apply bind_returned in H. destruct H as (? & st & ? & Hloop & H & _).
  apply bind_returned in H. destruct H as (? & last & ? & _ & H & _).
  apply bind_returned in H. destruct H as (? & ? & ? & _ & H & _).
  apply bind_returned in H. destruct H as (? & ? & ? & _ & H & _).
  apply bind_returned in H. destruct H as (? & ? & ? & _ & H & _).
  inversion H; subst; clear H. simpl.
  apply date_loop_sessions in Hloop. destruct Hloop as (added & Hds & Hadded).
  simpl in Hds. subst added.
  exists c, items. split; [reflexivity |]. split; assumption.
Qed.

Lemma date_loop_without_drives (root_path : string) (ds_config : DsConfig)
  (seq_size : Z) (items : list (string * list string)) (st : LoopState) :
  config_jobs items = [] ->
  foldM (fun st '(date, drives) =>
           foldM (drive_step root_path ds_config seq_size date) st drives)
        st items = ([], Ok st).
Proof.
  induction items as [| [date drives] r IH]; intros Hnone.
  - reflexivity.
  - rewrite config_jobs_cons in Hnone. apply app_eq_nil in Hnone.
    destruct Hnone as [Hdrives Hrest]. apply map_eq_nil in Hdrives.
    subst drives. cbn [foldM]. rewrite bind_ret. apply IH. exact Hrest.
Qed.

(** X10. A split that names no drive gives no dataset: construction
    raises IndexError when it reads the end of the last bin, and logs
    nothing. *)
Theorem split_without_drives_raises (g : Globals) (config c : Config)
  (ds_type : string) (transform : option Transform)
  (items : list (string * list string)) :
  cfg g = Some c ->
  dict_getitem (cfg_splits (datasets_kitti c)) ds_type = Ok items ->
  config_jobs items = [] ->
  Kitti_init g config ds_type transform = ([], Err IndexError).
Proof.
  intros Hcfg Hitems Hnone. unfold Kitti_init, global_cfg.
  rewrite Hcfg, !bind_ret, Hitems, bind_lift_Ok.
  rewrite date_loop_without_drives by exact Hnone.
  rewrite bind_silent. reflexivity.
Qed.

(** X11. A [ds_type] that is neither the name of a split of the
    configuration nor the key of one of the dataset options makes
    construction raise KeyError for that name. *)
Theorem unknown_split_raises (g : Globals) (config c : Config)
  (ds_type : string) (transform : option Transform) :
  cfg g = Some c ->
  ~ In ds_type option_keys ->
  ~ In ds_type (map fst (cfg_splits (datasets_kitti c))) ->
  Kitti_init g config ds_type transform = ([], Err (KeyError ds_type)).
Proof.
  intros Hcfg _ Hmissing. unfold Kitti_init, global_cfg.
  rewrite Hcfg, !bind_ret, dict_getitem_missing by exact Hmissing.
  reflexivity.
Qed.

End ConstructionFacts.

(* ===================================================================== *)
(** ** More about the construction of a session *)
(* ===================================================================== *)

Lemma sorted_insert_permutation (x : string) (l : list string) :
  Permutation (x :: l) (sorted_insert x l).
Proof.
  induction l as [| y r IH]; simpl.
  - apply Permutation_refl.
  - destruct (String.leb x y); [apply Permutation_refl |].
    eapply Permutation_trans; [apply perm_swap |].
    apply perm_skip. exact IH.
Qed.

Lemma sorted_permutation (l : list string) : Permutation l (sorted l).
Proof.
  induction l as [| x r IH]; simpl.
  - apply Permutation_refl.
  - eapply Permutation_trans; [apply perm_skip; exact IH |].
    apply sorted_insert_permutation.
Qed.

Lemma sorted_insert_ascending (x : string) (l : list string) :
  Sorted name_le l -> Sorted name_le (sorted_insert x l).
Proof.
  induction 1 as [| y r Hr IH Hhd]; simpl.
  - repeat constructor.
  - destruct (String.leb x y) eqn:Hxy.
    + constructor; [constructor; assumption |]. constructor. exact Hxy.
    + constructor; [exact IH |].
      assert (Hyx : name_le y x).
      { destruct (String.leb_total x y) as [H | H]; [congruence | exact H]. }
      destruct r as [| z r']; simpl.
      * constructor. exact Hyx.
      * destruct (String.leb x z); constructor;
          [exact Hyx | inversion Hhd; assumption].
Qed.

Lemma sorted_ascending (l : list string) : Sorted name_le (sorted l).
Proof.
  induction l as [| x r IH]; simpl.
  - constructor.
  - apply sorted_insert_ascending. exact IH.
Qed.

Lemma string_append_assoc (a b c : string) :
  ((a ++ b) ++ c = a ++ (b ++ c))%string.
Proof. induction a as [| x a IH]; simpl; [reflexivity | rewrite IH; reflexivity]. Qed.

Lemma ends_with_slash_append (a b : string) :
  b <> "" -> ends_with_slash (a ++ b) = ends_with_slash b.
Proof.
  intros Hb. induction a as [| x a IH]; simpl; [reflexivity |].
  destruct (a ++ b)%string eqn:Hab.
  - destruct a; simpl in Hab; [contradiction | discriminate].
  - exact IH.
Qed.

Lemma plain_first_append (a b : string) :
  plain_first b = true -> plain_first (a ++ "/" ++ b) = true.
Proof.
  unfold plain_first. intros H. apply andb_true_iff in H.
  destruct H as [Hne Hend].
  assert (Hb : b <> "").
  { intros ->. discriminate. }
  apply andb_true_iff. split.
  - destruct (String.eqb_spec (a ++ "/" ++ b) "") as [Heq | _];
      [| reflexivity].
    destruct a; simpl in Heq; discriminate.
  - rewrite ends_with_slash_append; [| simpl; discriminate].
    rewrite (ends_with_slash_append "/" b Hb). exact Hend.
Qed.

(** On components of this kind [path_join] is [os.path.join]. *)
Lemma posix_join_plain (a : string) (p : list string) :
  plain_first a = true ->
  Forall (fun b => plain_next b = true) p ->
  posix_join (a :: p) = path_join (a :: p) /\
  plain_first (path_join (a :: p)) = true.
Proof.
  unfold posix_join, path_join. intros Ha Hp. revert a Ha.
  induction Hp as [| b r Hb _ IH]; intros a Ha.
  - simpl. auto.
  - unfold plain_next in Hb. apply andb_true_iff in Hb.
    destruct Hb as [Hb Hstart]. apply negb_true_iff in Hstart.
    assert (Hstep : posix_join_step a b = (a ++ "/" ++ b)%string).
    { unfold posix_join_step. rewrite Hstart.
      unfold plain_first in Ha. apply andb_true_iff in Ha.
      destruct Ha as [Hne Hend]. apply negb_true_iff in Hne, Hend.
      rewrite Hne, Hend. reflexivity. }
    cbn [fold_left]. rewrite Hstep.
    destruct (IH (a ++ "/" ++ b)%string (plain_first_append a b Hb))
      as [Hjoin Hplain].
    assert (Hconcat : String.concat "/" ((a ++ "/" ++ b)%string :: r)
                      = String.concat "/" (a :: b :: r)).
    { destruct r as [| c r']; simpl; [reflexivity |].
      rewrite !string_append_assoc. reflexivity. }
    rewrite Hjoin, Hconcat in *. auto.
Qed.

Section SessionConstruction.
Context {E : Externals}.

Lemma read_timestamps_returned (timestamp_file : string)
  (out : list Event) (timestamps : list Time) :
  read_timestamps timestamp_file = (out, Ok timestamps) ->
  exists lines,
    readlines timestamp_file = Ok lines /\
    List.length timestamps = List.length lines.
Proof.
  unfold read_timestamps. intros H.
  apply bind_returned in H. destruct H as (? & lines & ? & Hlines & H & _).
  apply lift_returned in Hlines. destruct Hlines as [_ Hlines].
  apply mapM_length in H. exists lines. auto.
Qed.

(** X12. A session constructed without [frames], as [Kitti.__init__]
    constructs its sessions, from a root path, a date and a drive that
    are not empty and have no slash at their ends (date and drive none at
    their start either), carries that date and drive; its scan files and
    its inertial files are the files that the two patterns under its data
    path match, in ascending order of their names; and its length is the
    number of scan files that were matched. *)
Theorem constructed_session_files (base_path date' drive' : string)
  (cfg : DsConfig) (self : KittiRawData) :
  plain_first base_path = true ->
  plain_next date' = true ->
  plain_next drive' = true ->
  returned (KittiRawData_init base_path date' drive' cfg) = Some self ->
  let data_path := posix_join [base_path; date'; drive'] in
  let velo_pattern :=
    posix_join [data_path; "velodyne_points"; "data"; "*.txt"] in
  let oxts_pattern := posix_join [data_path; "oxts"; "data"; "*.txt"] in
  date self = date' /\ drive self = drive' /\
  Permutation (glob_glob velo_pattern) (velo_files self) /\
  Sorted name_le (velo_files self) /\
  Permutation (glob_glob oxts_pattern) (oxts_files self) /\
  Sorted name_le (oxts_files self) /\
  KittiRawData_len self = len (glob_glob velo_pattern).
Proof.
  intros Hbase Hdate Hdrive H. cbv zeta.
  destruct (posix_join_plain base_path [date'; drive'] Hbase)
    as [Hdata Hplain]; [repeat constructor; assumption |].
  rewrite Hdata.
  rewrite (proj1 (posix_join_plain _ ["velodyne_points"; "data"; "*.txt"]
                    Hplain ltac:(repeat constructor))).
  rewrite (proj1 (posix_join_plain _ ["oxts"; "data"; "*.txt"]
                    Hplain ltac:(repeat constructor))).
  clear Hdata Hplain.
  apply returned_Some in H. destruct H as [out H].
  unfold KittiRawData_init in H.
  apply bind_returned in H. destruct H as (? & ts_imu & ? & _ & H & _).
  apply bind_returned in H. destruct H as (? & ts_velo & ? & _ & H & _).
  inversion H; subst; clear H. unfold KittiRawData_len. simpl.
  repeat split; try apply sorted_permutation; try apply sorted_ascending.
  unfold len. f_equal. symmetry. apply Permutation_length.
  apply sorted_permutation.
Qed.

(** X13. A constructed session has one inertial timestamp per line of
    the inertial timestamp file and one scan timestamp per line of the
    scan timestamp file; both files were read. *)
Theorem constructed_session_timestamps (base_path date' drive' : string)
  (cfg : DsConfig) (self : KittiRawData) :
  returned (KittiRawData_init base_path date' drive' cfg) = Some self ->
  let data_path := path_join [base_path; date'; drive'] in
  exists lines_imu lines_velo,
    readlines (path_join [data_path; "oxts"; "timestamps.txt"])
      = Ok lines_imu /\
    readlines (path_join [data_path; "velodyne_points"; "timestamps.txt"])
      = Ok lines_velo /\
    List.length (timestamps_imu self) = List.length lines_imu /\
    List.length (timestamps_velo self) = List.length lines_velo.
Proof.
  intros H. apply returned_Some in H. destruct H as [out H].
  unfold KittiRawData_init in H.
  apply bind_returned in H. destruct H as (? & ts_imu & ? & Himu & H & _).
  apply bind_returned in H. destruct H as (? & ts_velo & ? & Hvelo & H & _).
  inversion H; subst; clear H. cbv zeta. simpl.
  apply read_timestamps_returned in Himu. destruct Himu as (l1 & Hr1 & Hl1).
  apply read_timestamps_returned in Hvelo. destruct Hvelo as (l2 & Hr2 & Hl2).
  exists l1, l2. auto.
Qed.

End SessionConstruction.

(* ===================================================================== *)
(** ** Timestamp lines that are not of the usual form *)
(* ===================================================================== *)

Lemma span_digits_end (ds : list ascii) (n : nat) :
  Forall (fun c => is_digit c = true) ds ->
  (List.length ds <= n)%nat ->
  span_digits n ds = (ds, []).
Proof.
  intros H. revert n. induction H as [| c ds Hc _ IH]; intros n Hn.
  - destruct n; reflexivity.
  - destruct n as [| n]; simpl in Hn; [lia |].
    simpl. rewrite Hc, IH by lia. reflexivity.
Qed.

Lemma match_Dirf_short (t : datetime) (k : nat) (v : Z) :
  (1 <= k <= 6)%nat -> 0 <= v < 10 ^ Z.of_nat k ->
  match_directive Dirf t (pad k v)
    = Some (mkdatetime (year t) (month t) (day t) (hour t) (minute t)
              (second t) (v * 10 ^ Z.of_nat (6 - k)), []).
Proof.
  intros Hk Hv. unfold match_directive.
  rewrite span_digits_end, pad_length, pad_value;
    [| exact Hv | apply pad_digits | rewrite pad_length; lia].
  destruct (Nat.leb_spec 1 k); [reflexivity | lia].
Qed.

(** A last line without newline, cut by four characters and parsed,
    keeps five of its sub-second digits. *)
Lemma strptime_unterminated_line (t : datetime) (nanos : Z) :
  datetime_valid (coarse t nanos) = true ->
  0 <= nanos < 1000000000 ->
  datetime_strptime (py_drop_last 4 (unterminated_line t nanos))
                    "%Y-%m-%d %H:%M:%S.%f"
    = Ok (coarse t nanos).
Proof.
  intros Hvalid Hnanos.
  assert (Hbounds := Hvalid). unfold datetime_valid, coarse in Hbounds.
  cbn [year month day hour minute second microsecond] in Hbounds.
  repeat (apply andb_true_iff in Hbounds;
          destruct Hbounds as [Hbounds ?]).
  repeat match goal with
         | H : (_ <=? _) = true |- _ => apply Z.leb_le in H
         end.
  pose proof (days_in_month_le (year t) (month t)) as Hdim.
  assert (Hfrac : 0 <= nanos / 10000 < 10 ^ Z.of_nat 5).
  { split; [apply Z.div_pos; lia |].
    apply Z.div_lt_upper_bound; [lia |]. change (10 ^ Z.of_nat 5) with 100000.
    lia. }
  unfold unterminated_line.
  change 9%nat with (4 + 5)%nat. rewrite pad_app.
  change (10 ^ Z.of_nat 4) with 10000.
  match goal with
  | |- context [string_of_list_ascii ?L] =>
      replace L with
        ((pad 4 (year t) ++ "-"%char :: pad 2 (month t) ++ "-"%char ::
          pad 2 (day t) ++ " "%char :: pad 2 (hour t) ++ ":"%char ::
          pad 2 (minute t) ++ ":"%char :: pad 2 (second t) ++ "."%char ::
          pad 5 (nanos / 10000))
         ++ pad 4 nanos)
  end.
  2: { repeat (rewrite <- app_assoc || rewrite <- app_comm_cons).
       reflexivity. }
  rewrite py_drop_last_app by apply pad_length.
  unfold datetime_strptime.
  rewrite list_ascii_of_string_of_list_ascii.
  change (compile_format (list_ascii_of_string "%Y-%m-%d %H:%M:%S.%f"))
    with (Ok [DirY; DirLit "-"; Dirm; DirLit "-"; Dird; DirSpace; DirH;
              DirLit ":"; DirM; DirLit ":"; DirS; DirLit "."; Dirf]).
  cbn [rbind match_directives].
  rewrite match_DirY by lia. cbv beta iota.
  rewrite match_DirLit. cbv beta iota.
  rewrite match_Dirm by lia. cbv beta iota.
  rewrite match_DirLit. cbv beta iota.
  rewrite match_Dird by lia. cbv beta iota.
  rewrite match_DirSpace by lia. cbv beta iota.
  rewrite match_DirH by lia. cbv beta iota.
  rewrite match_DirLit. cbv beta iota.
  rewrite match_DirM by lia. cbv beta iota.
  rewrite match_DirLit. cbv beta iota.
  rewrite match_DirS by lia. cbv beta iota.
  rewrite match_DirLit. cbv beta iota.
  rewrite match_Dirf_short by (try exact Hfrac; lia). cbv beta iota.
  cbn [year month day hour minute second microsecond].
  change (10 ^ Z.of_nat (6 - 5)) with 10.
  fold (coarse t nanos). rewrite Hvalid. reflexivity.
Qed.

(** X14. In a timestamp file whose last line lacks its newline, that
    line loses four of its nine sub-second digits instead of three: it is
    read as its time cut to a multiple of ten microseconds, while the
    lines before it are cut to microseconds. *)
Theorem unterminated_last_line_is_coarser (dirs : list DriveDir)
  (timestamp_file : string) (stamps : list (datetime * Z))
  (t : datetime) (nanos : Z) :
  storage_readlines dirs timestamp_file
    = Ok (stamp_lines stamps ++ [unterminated_line t nanos]) ->
  Forall stamp_ok stamps ->
  datetime_valid (coarse t nanos) = true ->
  0 <= nanos < 1000000000 ->
  @read_timestamps (datetime_externals dirs) timestamp_file
    = ([], Ok (map (fun p => truncated (fst p) (snd p)) stamps
               ++ [coarse t nanos])).
Proof.
  intros Hlines Hok Hvalid Hnanos. unfold read_timestamps.
  change (@readlines (datetime_externals dirs) timestamp_file)
    with (storage_readlines dirs timestamp_file).
  rewrite Hlines, bind_lift_Ok. clear Hlines.
  change (@strptime (datetime_externals dirs)) with datetime_strptime.
  induction Hok as [| [t' nanos'] stamps Hp Hrest IH].
  - cbn [stamp_lines map app mapM].
    rewrite (strptime_unterminated_line t nanos Hvalid Hnanos).
    reflexivity.
  - cbn [stamp_lines map app mapM fst snd].
    rewrite (strptime_timestamp_line t' nanos' Hp), bind_lift_Ok.
    fold (stamp_lines stamps). rewrite IH. reflexivity.
Qed.

Lemma strptime_raises_ValueError (data_string : string) :
  (exists t, datetime_strptime data_string "%Y-%m-%d %H:%M:%S.%f" = Ok t) \/
  datetime_strptime data_string "%Y-%m-%d %H:%M:%S.%f" = Err ValueError.
Proof.
  unfold datetime_strptime.
  change (compile_format (list_ascii_of_string "%Y-%m-%d %H:%M:%S.%f"))
    with (Ok [DirY; DirLit "-"; Dirm; DirLit "-"; Dird; DirSpace; DirH;
              DirLit ":"; DirM; DirLit ":"; DirS; DirLit "."; Dirf]).
  cbn [rbind].
  destruct (match_directives _ _ _) as [[t [| c r]] |]; auto.
  destruct (datetime_valid t); eauto.
Qed.

Lemma py_drop_last_short (k : nat) (line : string) :
  (String.length line <= k)%nat -> py_drop_last k line = "".
Proof.
  intros Hlen. unfold py_drop_last.
  assert (Heq : List.length (list_ascii_of_string line) = String.length line).
  { clear Hlen. induction line as [| c s IH]; simpl; congruence. }
  rewrite Heq. replace (String.length line - k)%nat with 0%nat by lia.
  reflexivity.
Qed.

Lemma read_short_line_raises (lines : list string) :
  Exists (fun line => (String.length line <= 4)%nat) lines ->
  mapM (fun line =>
          lift (datetime_strptime (py_drop_last 4 line)
                  "%Y-%m-%d %H:%M:%S.%f")) lines
    = ([], Err ValueError).
Proof.
  induction lines as [| line r IH]; intros Hex.
  - inversion Hex.
  - cbn [mapM].
    destruct (strptime_raises_ValueError (py_drop_last 4 line))
      as [[t Ht] | Herr].
    + rewrite Ht, bind_lift_Ok.
      inversion Hex as [? ? Hshort | ? ? Hrest]; subst.
      * rewrite py_drop_last_short in Ht by exact Hshort. discriminate.
      * rewrite (IH Hrest). reflexivity.
    + rewrite Herr. reflexivity.
Qed.

(** X15. An inertial timestamp file with a line of at most four
    characters, such as a blank line, cannot be loaded: the construction
    of the session raises ValueError. *)
Theorem short_timestamp_line_aborts_construction (dirs : list DriveDir)
  (base_path date' drive' : string)
  (cfg : @DsConfig (datetime_externals dirs)) (lines : list string) :
  storage_readlines dirs
    (path_join [path_join [base_path; date'; drive']; "oxts";
                "timestamps.txt"]) = Ok lines ->
  Exists (fun line => (String.length line <= 4)%nat) lines ->
  @KittiRawData_init (datetime_externals dirs) base_path date' drive' cfg
    = ([], Err ValueError).
Proof.
  intros Hlines Hshort. unfold KittiRawData_init, read_timestamps.
  change (@readlines (datetime_externals dirs)) with (storage_readlines dirs).
  rewrite Hlines, bind_lift_Ok.
  change (@strptime (datetime_externals dirs)) with datetime_strptime.
  cbv beta. change (@Time (datetime_externals dirs)) with datetime.
  rewrite (read_short_line_raises lines Hshort). reflexivity.
Qed.

(* ===================================================================== *)
(** ** The further statements at the example recordings *)
(* ===================================================================== *)

Lemma integer_order_complement (a b : Z) : (a <? b) = negb (a >=? b).
Proof. rewrite Z.geb_leb. apply Z.ltb_antisym. Qed.

Lemma returned_sample_images_witness :
  List.length (@images integer_externals integer_sample) = Z.to_nat 2 /\
  Forall2 (fun idx image =>
             @get_velo_image integer_externals
               (integer_session [1; 5; 9; 15]) idx = Ok image)
          (py_range 0 (0 + 2)) (@images integer_externals integer_sample).
Proof.
  exact (@returned_sample_images integer_externals
           (integer_session [1; 5; 9; 15]) 0 2 [] integer_sample eq_refl).
Defined.

Lemma window_past_the_end_raises_witness :
  @get_data integer_externals (integer_session [15]) 3 2
    = ([], Err IndexError).
Proof.
  apply (@window_past_the_end_raises integer_externals
           (integer_session [15]) 3 2).
  - lia.
  - lia.
  - unfold len. simpl. lia.
Defined.

Lemma single_scan_window_never_returns_witness :
  returned (@get_data integer_externals (integer_session [1; 5; 9; 15]) 0 1)
    = None.
Proof.
  exact (@single_scan_window_never_returns integer_externals
           (integer_session [1; 5; 9; 15]) 0 integer_order_complement).
Defined.

Lemma readings_and_poses_are_paired_witness :
  exists t0 t1 rows,
    py_getitem [0; 10; 20; 30] 0 = Ok t0 /\
    py_getitem [0; 10; 20; 30] (0 + 2 - 1) = Ok t1 /\
    @imu integer_externals integer_sample = @ImuRows integer_externals rows /\
    Forall (fun row => List.length row = 6%nat) rows /\
    forall k row pose,
      nth_error rows k = Some row ->
      nth_error (@ground_truth integer_externals integer_sample) k
        = Some pose ->
      exists index file otx o,
        nth_error (argwhere (@imu_mask integer_externals [1; 5; 9; 15] t0 t1))
                  k = Some index /\
        py_getitem (@oxts_files integer_externals
                      (integer_session [1; 5; 9; 15])) index = Ok file /\
        @load_oxts_packets_and_poses integer_externals [file] = Ok otx /\
        py_getitem otx 0 = Ok o /\
        row = [ax (packet o); ay (packet o); az (packet o);
               wx (packet o); wy (packet o); wz (packet o)] /\
        pose = List.concat (T_w_imu o).
Proof.
  exact (@readings_and_poses_are_paired integer_externals
           (integer_session [1; 5; 9; 15]) 0 2 [] integer_sample eq_refl).
Defined.

Lemma window_length_one_yields_nothing_witness :
  returned (@Kitti_getitem integer_externals
              (@mkGlobals integer_externals None true)
              single_scan_dataset 0) = None \/
  returned (@Kitti_getitem integer_externals
              (@mkGlobals integer_externals None true)
              single_scan_dataset 0) = Some None.
Proof.
  exact (@window_length_one_yields_nothing integer_externals
           (@mkGlobals integer_externals None true) single_scan_dataset 0
           integer_order_complement eq_refl).
Defined.

Lemma getitem_needs_time_witness :
  Kitti_getitem one_session_globals_without_time one_session_dataset 1
    = ([], Err (NameError "time")).
Proof.
  apply (@getitem_needs_time (datetime_externals one_session_dirs)
           one_session_globals_without_time one_session_config "train" None
           one_session_dataset 1 eq_refl eq_refl).
  split; [discriminate | reflexivity].
Defined.

Lemma dataset_follows_configuration_witness :
  exists c items,
    cfg one_session_globals = Some c /\
    dict_getitem (cfg_splits (datasets_kitti c)) "train" = Ok items /\
    sessions_of (cfg_root_path (datasets_kitti c)) (datasets_kitti c)
                (config_jobs items) (dataset one_session_dataset).
Proof.
  exact (@dataset_follows_configuration (datetime_externals one_session_dirs)
           one_session_globals one_session_config "train" None
           one_session_dataset eq_refl).
Defined.

Lemma split_without_drives_raises_witness :
  Kitti_init empty_split_globals empty_split_config "train" None
    = ([], Err IndexError).
Proof.
  apply (@split_without_drives_raises (datetime_externals [])
           empty_split_globals empty_split_config empty_split_config
           "train" None [("2011_09_26", [])]); reflexivity.
Defined.

Lemma unknown_split_raises_witness :
  Kitti_init one_session_globals one_session_config "test" None
    = ([], Err (KeyError "test")).
Proof.
  apply (@unknown_split_raises (datetime_externals one_session_dirs)
           one_session_globals one_session_config one_session_config
           "test" None).
  - reflexivity.
  - intros [H | [H | [H | [H | [H | []]]]]]; discriminate.
  - intros [H | []]. discriminate.
Defined.

Lemma constructed_session_files_witness :
  date one_session_drive = "2011_09_26" /\
  drive one_session_drive = "0001" /\
  Sorted name_le (velo_files one_session_drive) /\
  KittiRawData_len one_session_drive = 5.
Proof.
  destruct (@constructed_session_files (datetime_externals one_session_dirs)
              "kitti" "2011_09_26" "0001" (datasets_kitti one_session_config)
              one_session_drive eq_refl eq_refl eq_refl eq_refl)
    as (Hdate & Hdrive & _ & Hsorted & _ & _ & Hlen).
  split; [exact Hdate |]. split; [exact Hdrive |].
  split; [exact Hsorted |]. rewrite Hlen. reflexivity.
Defined.

Lemma constructed_session_timestamps_witness :
  exists lines_imu lines_velo,
    storage_readlines one_session_dirs
      "kitti/2011_09_26/0001/oxts/timestamps.txt" = Ok lines_imu /\
    storage_readlines one_session_dirs
      "kitti/2011_09_26/0001/velodyne_points/timestamps.txt"
      = Ok lines_velo /\
    List.length (timestamps_imu one_session_drive) = List.length lines_imu /\
    List.length (timestamps_velo one_session_drive) = List.length lines_velo.
Proof.
  exact (@constructed_session_timestamps
           (datetime_externals one_session_dirs)
           "kitti" "2011_09_26" "0001" (datasets_kitti one_session_config)
           one_session_drive eq_refl).
Defined.

Lemma unterminated_last_line_is_coarser_witness :
  @read_timestamps (datetime_externals unterminated_dirs)
    "kitti/2011_09_26/0005/oxts/timestamps.txt"
    = ([], Ok (map (fun p => truncated (fst p) (snd p))
                   (demo_stamps 2 50000000)
               ++ [mkdatetime 2011 9 26 13 2 25 951190])).
Proof.
  apply (unterminated_last_line_is_coarser unterminated_dirs
           "kitti/2011_09_26/0005/oxts/timestamps.txt"
           (demo_stamps 2 50000000)
           (mkdatetime 2011 9 26 13 2 25 0) 951199337).
  - reflexivity.
  - apply demo_stamps_ok; lia.
  - reflexivity.
  - lia.
Defined.

Lemma short_timestamp_line_aborts_construction_witness :
  @KittiRawData_init (datetime_externals blank_line_dirs)
    "kitti" "2011_09_26" "0006" (datasets_kitti blank_line_config)
    = ([], Err ValueError).
Proof.
  apply (short_timestamp_line_aborts_construction blank_line_dirs
           "kitti" "2011_09_26" "0006" (datasets_kitti blank_line_config)
           (stamp_lines (demo_stamps 2 50000000) ++ [newline])).
  - reflexivity.
  - apply Exists_exists. exists newline. split.
    + apply in_or_app. right. left. reflexivity.
    + unfold newline. simpl. lia.
Defined.

(* ===================================================================== *)
(** ** Positions outside a session, and positions counted from its end *)
(* ===================================================================== *)

Lemma py_getitem_below {A} (a : list A) (i : Z) :
  i < - len a -> py_getitem a i = Err IndexError.
Proof.
  intros Hi. unfold py_getitem. pose proof (Zle_0_nat (List.length a)).
  unfold len in *. destruct (Z.ltb_spec i 0); [| lia].
  destruct (Z.leb_spec 0 (Z.of_nat (List.length a) + i)); [lia |].
  reflexivity.
Qed.

Lemma mapM_ext_in {A B} (f g : A -> M B) (l : list A) :
  (forall x, In x l -> f x = g x) -> mapM f l = mapM g l.
Proof.
  induction l as [| x r IH]; intros Hext; simpl.
  - reflexivity.
  - rewrite (Hext x) by (left; reflexivity).
    rewrite IH; [reflexivity |]. intros y Hy. apply Hext. right. exact Hy.
Qed.

Lemma mapM_map {A B C} (f : B -> M C) (h : A -> B) (l : list A) :
  mapM f (map h l) = mapM (fun x => f (h x)) l.
Proof.
  induction l as [| x r IH]; simpl; [reflexivity |].
  rewrite IH. reflexivity.
Qed.

Lemma py_range_shift (n a b : Z) :
  py_range (n + a) (n + b) = map (Z.add n) (py_range a b).
Proof.
  unfold py_range. rewrite map_map.
  replace (n + b - (n + a)) with (b - a) by lia.
  apply map_ext. intros k. lia.
Qed.

Lemma py_range_In (a b i : Z) : In i (py_range a b) -> a <= i < b.
Proof.
  unfold py_range. intros H. apply in_map_iff in H.
  destruct H as (k & <- & Hk). apply in_seq in Hk. lia.
Qed.

Section WrapFacts.
Context {E : Externals}.

(** X16. Outside [-N, N), with [N] the number of scans of the session,
    single-scan retrieval raises IndexError and decodes nothing. *)
Theorem scan_index_out_of_range (self : KittiRawData) (idx : Z) :
  idx < - KittiRawData_len self \/ KittiRawData_len self <= idx ->
  get_velo self idx = Err IndexError /\
  get_velo_image self idx = Err IndexError.
Proof.
  unfold KittiRawData_len, get_velo, get_velo_image.
  intros [Hlow | Hhigh].
  - rewrite py_getitem_below by exact Hlow. split; reflexivity.
  - rewrite py_getitem_beyond by exact Hhigh. split; reflexivity.
Qed.

(** X17. In a session with as many scan timestamps as scans, a window
    that is given by a negative start index and ends at or before the end
    of the session returns what the window at the same scans, counted
    from the front, returns. *)
Theorem negative_start_index_wraps (self : KittiRawData)
  (start_index length : Z) :
  len (timestamps_velo self) = KittiRawData_len self ->
  - KittiRawData_len self <= start_index ->
  1 <= length ->
  start_index + length <= 0 ->
  returned (get_data self start_index length)
    = returned (get_data self (KittiRawData_len self + start_index) length).
Proof.
  unfold KittiRawData_len. intros Hts Hlow Hlen Hhigh. unfold get_data.
  set (n := len (velo_files self)) in *.
  rewrite (py_getitem_negative (timestamps_velo self) start_index)
    by (rewrite Hts; lia).
  rewrite (py_getitem_negative (timestamps_velo self)
             (start_index + length - 1)) by (rewrite Hts; lia).
  rewrite Hts.
  replace (n + (start_index + length - 1))
    with (n + start_index + length - 1) by lia.
  replace (n + start_index + length) with (n + (start_index + length))
    by lia.
  rewrite (py_range_shift n start_index (start_index + length)), mapM_map.
  rewrite (mapM_ext_in
             (fun idx => lift (get_velo_image self idx))
             (fun x => lift (get_velo_image self (n + x)))).
  2: { intros idx Hidx. apply py_range_In in Hidx.
       unfold get_velo_image.
       rewrite (py_getitem_negative (velo_files self) idx)
         by (fold n; lia).
       reflexivity. }
  destruct (py_getitem (timestamps_velo self) (n + start_index))
    as [t0 | e0]; [rewrite !bind_lift_Ok | reflexivity].
  match goal with
  | |- context [lift (py_getitem (timestamps_velo self) ?i)] =>
      destruct (py_getitem (timestamps_velo self) i) as [t1 | e1]
  end; [rewrite !bind_lift_Ok | reflexivity].
  match goal with
  | |- context [bind (mapM ?f ?l) _] =>
      pose proof (mapM_silent f l (fun idx => eq_refl)) as Himg;
      destruct (mapM f l) as [o [imgs | e]]
  end; unfold silent in Himg; simpl in Himg; subst o;
    [rewrite !bind_silent | reflexivity].
  unfold np_take.
  match goal with
  | |- context [bind (mapM ?f ?l) _] =>
      pose proof (mapM_silent f l (fun idx => eq_refl)) as Htk;
      destruct (mapM f l) as [o [imu_ts | e]]
  end; unfold silent in Htk; simpl in Htk; subst o;
    [rewrite !bind_silent | reflexivity].
  destruct (len imu_ts =? 0); reflexivity.
Qed.

End WrapFacts.

Lemma scan_index_out_of_range_witness :
  @get_velo integer_externals (integer_session [15]) 4 = Err IndexError /\
  @get_velo_image integer_externals (integer_session [15]) 4
    = Err IndexError.
Proof.
  apply (@scan_index_out_of_range integer_externals
           (integer_session [15]) 4).
  right. unfold KittiRawData_len, len. simpl. lia.
Defined.

Lemma negative_start_index_wraps_witness :
  returned (@get_data integer_externals (integer_session [1; 5; 9; 15])
              (-4) 2)
    = returned (@get_data integer_externals (integer_session [1; 5; 9; 15])
                  (4 + -4) 2).
Proof.
  apply (@negative_start_index_wraps integer_externals
           (integer_session [1; 5; 9; 15]) (-4) 2).
  - reflexivity.
  - unfold KittiRawData_len, len. simpl. lia.
  - lia.
  - lia.
Defined.

(* ===================================================================== *)
(** ** When the construction of the dataset returns *)
(* ===================================================================== *)

Lemma returned_bind {A B} (m : M A) (f : A -> M B) :
  returned (bind m f)
    = match returned m with
      | Some a => returned (f a)
      | None => None
      end.
Proof.
  unfold returned. destruct m as [o [a | e]]; simpl; [| reflexivity].
  destruct (f a). reflexivity.
Qed.

Lemma flatten_bins_last (bins : list (Z * Z)) :
  bins <> [] ->
  exists last, py_getitem (flatten_bins bins) (-1) = Ok last.
Proof.
  intros Hne. destruct bins as [| b r]; [contradiction |].
  assert (Hlen : 2 <= len (flatten_bins (b :: r))).
  { unfold len. simpl. lia. }
  rewrite py_getitem_negative by lia.
  destruct (py_getitem_nonneg (flatten_bins (b :: r))
              (len (flatten_bins (b :: r)) + -1)) as (x & _ & Hx); [lia |].
  exists x. exact Hx.
Qed.

Section ConstructionReturns.
Context {E : Externals}.

Lemma drive_loop_returns (root_path : string) (ds_config : DsConfig)
  (seq_size : Z) (date : string) (drives : list string) :
  (forall drive, In drive drives ->
     exists s, returned (KittiRawData_init root_path date drive ds_config)
               = Some s) ->
  forall st, exists st',
    returned (foldM (drive_step root_path ds_config seq_size date) st drives)
      = Some st'.
Proof.
  induction drives as [| drive r IH]; intros Hall st.
  - exists st. reflexivity.
  - destruct (Hall drive) as [s Hs]; [left; reflexivity |].
    cbn [foldM]. unfold drive_step at 1.
    rewrite !returned_bind, Hs. cbn [returned ret snd].
    apply IH. intros d Hd. apply Hall. right. exact Hd.
Qed.

Lemma date_loop_returns (root_path : string) (ds_config : DsConfig)
  (seq_size : Z) (items : list (string * list string)) :
  (forall job, In job (config_jobs items) ->
     exists s, returned (KittiRawData_init root_path (fst job) (snd job)
                           ds_config) = Some s) ->
  forall st, exists st',
    returned (foldM (fun st '(date, drives) =>
                       foldM (drive_step root_path ds_config seq_size date)
                             st drives) st items) = Some st'.
Proof.
  induction items as [| [date drives] r IH]; intros Hall st.
  - exists st. reflexivity.
  - rewrite config_jobs_cons in Hall. cbn [foldM]. rewrite returned_bind.
    destruct (drive_loop_returns root_path ds_config seq_size date drives)
      with (st := st) as [st1 Hst1].
    { intros drive Hd. apply (Hall (date, drive)). apply in_or_app. left.
      apply in_map. exact Hd. }
    rewrite Hst1. apply IH. intros job Hjob. apply Hall.
    apply in_or_app. right. exact Hjob.
Qed.

Lemma log_loop_returns (sessions : list KittiRawData) (lengths : list Z)
  (bins : list (Z * Z)) (positions : list Z) :
  List.length sessions = List.length lengths ->
  List.length bins = List.length lengths ->
  (forall i, In i positions -> 0 <= i < len lengths) ->
  exists done, returned (mapM (log_drive sessions lengths bins) positions)
               = Some done.
Proof.
  intros Hs Hb. induction positions as [| i r IH]; intros Hpos.
  - exists []. reflexivity.
  - assert (Hi : 0 <= i < len lengths) by (apply Hpos; left; reflexivity).
    destruct IH as [done Hdone];
      [intros j Hj; apply Hpos; right; exact Hj |].
    destruct (py_getitem_nonneg sessions i) as (s & _ & Hgs);
      [unfold len in *; lia |].
    destruct (py_getitem_nonneg lengths i) as (l & _ & Hgl); [exact Hi |].
    destruct (py_getitem_nonneg bins i) as (b & _ & Hgb);
      [unfold len in *; lia |].
    exists (tt :: done). cbn [mapM]. unfold log_drive at 1.
    rewrite Hgs, Hgl, Hgb, !bind_lift_Ok, returned_bind.
    cbn [returned emit snd]. rewrite returned_bind, Hdone. reflexivity.
Qed.

(** X18. Construction returns a dataset whenever the module binds [cfg],
    the configuration has the split, the split names at least one drive
    and the session of every named drive can be constructed; the dataset
    has one session per named drive. *)
Theorem construction_returns (g : Globals) (config c : Config)
  (ds_type : string) (transform : option Transform)
  (items : list (string * list string)) :
  cfg g = Some c ->
  dict_getitem (cfg_splits (datasets_kitti c)) ds_type = Ok items ->
  config_jobs items <> [] ->
  (forall job, In job (config_jobs items) ->
     exists s,
       returned (KittiRawData_init (cfg_root_path (datasets_kitti c))
                   (fst job) (snd job) (datasets_kitti c)) = Some s) ->
  exists self,
    returned (Kitti_init g config ds_type transform) = Some self /\
    List.length (dataset self) = List.length (config_jobs items).
Proof.
  intros Hcfg Hitems Hjobs Hall.
  destruct (date_loop_returns (cfg_root_path (datasets_kitti c))
              (datasets_kitti c) (sequence_size c) items Hall
              (mkLoopState (-1) [] [] [])) as [st Hst].
  destruct (returned_Some _ _ Hst) as [out Hloop].
  assert (Hinv : loop_invariant (sequence_size c) st).
  { revert Hloop.
    apply (foldM_invariant (loop_invariant (sequence_size c))).
    - intros st0 [date drives] o st1 Hst0.
      apply (foldM_invariant (loop_invariant (sequence_size c)));
        [| exact Hst0].
      intros st2 drive o' st3 Hst2 Hstep.
      eapply drive_step_invariant; eassumption.
    - unfold loop_invariant. simpl. auto. }
  destruct Hinv as (Hlen & Hbins & _).
  destruct (date_loop_sessions _ _ _ _ _ _ _ Hloop) as (added & Hds & Hadded).
  simpl in Hds. subst added.
  assert (Hcount : List.length (st_dataset st)
                   = List.length (config_jobs items)).
  { symmetry. eapply Forall2_length. exact Hadded. }
  assert (Hlens : List.length (st_dataset st)
                  = List.length (st_length_each_drive st)).
  { rewrite Hlen, length_map. reflexivity. }
  assert (Hblen : List.length (st_bins st)
                  = List.length (st_length_each_drive st)).
  { rewrite Hbins. apply bins_of_length. }
  destruct (flatten_bins_last (st_bins st)) as [last Hlast].
  { intros Hnil. rewrite Hnil in Hblen. simpl in Hblen.
    destruct (config_jobs items); [contradiction | simpl in *; lia]. }
  destruct (log_loop_returns (st_dataset st) (st_length_each_drive st)
              (st_bins st) (py_range 0 (len (st_length_each_drive st)))
              Hlens Hblen) as [done Hdone].
  { intros i Hi. apply py_range_In in Hi. exact Hi. }
  eexists. split.
  - unfold Kitti_init, global_cfg. rewrite Hcfg, !bind_ret, Hitems.
    rewrite bind_lift_Ok, returned_bind, Hst, returned_bind.
    cbn [returned lift snd]. rewrite Hlast. cbn [returned lift snd].
    rewrite returned_bind. cbn [returned emit snd].
    rewrite returned_bind. cbn [returned emit snd].
    rewrite returned_bind, Hdone. reflexivity.
  - exact Hcount.
Qed.

End ConstructionReturns.

Lemma construction_returns_witness :
  exists self,
    returned (Kitti_init one_session_globals one_session_config "train" None)
      = Some self /\
    List.length (dataset self) = 1%nat.
Proof.
  apply (@construction_returns (datetime_externals one_session_dirs)
           one_session_globals one_session_config one_session_config
           "train" None [("2011_09_26", ["0001"])]).
  - reflexivity.
  - reflexivity.
  - discriminate.
  - intros job [<- | []]. exists one_session_drive. reflexivity.
Defined.
